(** * usabilla-api: the request signer of [src/index.js]

    A shallow embedding of the [SignatureFactory], [Resource] and [Usabilla]
    classes, with the properties of the signing protocol proved or refuted
    on it.

    Conventions of the embedding:
    - a JavaScript string is a Rocq [string], read as the bytes of its UTF-8
      encoding, so that [update(string, 'utf8')] hashes those bytes as they
      are and string comparison is byte-wise;
    - a property that may hold [undefined] is an [option];
    - a [Buffer] is a [list byte];
    - a method that only reads [this] is a function of the factory, a method
      that assigns to [this] runs in the state monad [M] below;
    - [throw] is the [Throw] result: the state it carries is the state at the
      moment of the exception. *)

From Stdlib Require Import ZArith List String Ascii Strings.Byte Bool Lia Permutation.
From Stdlib Require Import DecimalString.
From stdpp Require Import base list strings gmap sorting.

Import ListNotations.
Local Open Scope string_scope.
Local Open Scope Z_scope.

(** ** JavaScript strings *)

Module JS.

(** The line feed, ['\n']. *)
Definition LF : string := String "010" "".

(** [ToString] of a value that is a string or [undefined], as a template
    literal or [+] applies it. *)
Definition ToString (v : option string) : string :=
  match v with
  | Some s => s
  | None => "undefined"
  end.

(** [Array.prototype.join]: [undefined] elements are rendered empty. *)
Definition elem (v : option string) : string :=
  match v with
  | Some s => s
  | None => ""
  end.

Fixpoint join (sep : string) (l : list (option string)) : string :=
  match l with
  | [] => ""
  | [x] => elem x
  | x :: l' => elem x ++ sep ++ join sep l'
  end.

(** Truthiness of a string-or-undefined: [undefined] and [''] are falsy. *)
Definition truthy (v : option string) : bool :=
  match v with
  | Some s => negb (String.eqb s "")
  | None => false
  end.

(** [a || b] on such values. *)
Definition or (v : option string) (d : string) : string :=
  if truthy v then elem v else d.

(** [s.slice(0, -1)]: all but the last character. *)
Fixpoint slice_0_m1 (s : string) : string :=
  match s with
  | "" => ""
  | String c "" => ""
  | String c s' => String c (slice_0_m1 s')
  end.

Fixpoint drop (n : nat) (s : string) : string :=
  match n, s with
  | O, _ => s
  | S n', String _ s' => drop n' s'
  | S _, "" => ""
  end.

(** The first occurrence of [pat] in [s]: what precedes and what follows
    it. *)
Fixpoint search (pat s : string) : option (string * string) :=
  if String.prefix pat s then Some ("", drop (String.length pat) s)
  else match s with
       | "" => None
       | String c s' =>
           match search pat s' with
           | Some (before, after) => Some (String c before, after)
           | None => None
           end
       end.

(** [GetSubstitution] for a string pattern (no captures): the replacement
    text with [$$], [$&], [$`] and [$'] expanded; any other [$] stands for
    itself. *)
Fixpoint GetSubstitution (matched before after repl : string) : string :=
  match repl with
  | "" => ""
  | String "$" (String c r) =>
      if Ascii.eqb c "$" then "$" ++ GetSubstitution matched before after r
      else if Ascii.eqb c "&" then matched ++ GetSubstitution matched before after r
      else if Ascii.eqb c "`" then before ++ GetSubstitution matched before after r
      else if Ascii.eqb c "'" then after ++ GetSubstitution matched before after r
      else String "$" (String c (GetSubstitution matched before after r))
  | String c r => String c (GetSubstitution matched before after r)
  end.

(** [s.replace(pat, repl)] with a string pattern: the first occurrence
    only. *)
Definition replace (s pat repl : string) : string :=
  match search pat s with
  | Some (before, after) =>
      before ++ GetSubstitution pat before after repl ++ after
  | None => s
  end.

(** [Array.prototype.sort()] on strings, with the default comparison
    [String.le]. The language leaves the algorithm open; the order is
    total, so every algorithm returns the same array. *)
Definition sort (l : list string) : list string := merge_sort String.le l.

End JS.

(** ** Exceptions *)

Inductive exn : Type :=
| TypeError    (* a property read on [undefined] *)
| CryptoError. (* [createHash] or [createHmac] threw *)

Inductive result (A : Type) : Type :=
| Ok (a : A)
| Throw (e : exn).
Arguments Ok {A} a.
Arguments Throw {A} e.

Definition rbind {A B} (r : result A) (k : A -> result B) : result B :=
  match r with
  | Ok a => k a
  | Throw e => Throw e
  end.

Declare Scope result_scope.
Delimit Scope result_scope with result.
Notation "x <- r ;; k" := (rbind r (fun x => k))
  (at level 100, r at next level, right associativity) : result_scope.

(** A method that assigns to its object: a state, and a value or an
    exception. *)
Definition state_exn (S A : Type) : Type := S -> result A * S.

Definition ret {S A} (a : A) : state_exn S A := fun w => (Ok a, w).
Definition bind {S A B} (m : state_exn S A) (k : A -> state_exn S B)
  : state_exn S B :=
  fun w =>
    match m w with
    | (Ok a, w') => k a w'
    | (Throw e, w') => (Throw e, w')
    end.

Declare Scope M_scope.
Delimit Scope M_scope with M.
Notation "x <- m ;; k" := (bind m (fun x => k))
  (at level 100, m at next level, right associativity) : M_scope.
Notation "m ;; k" := (bind m (fun _ => k))
  (at level 100, right associativity) : M_scope.

(** ** The [crypto] module of Node *)

(** What the signer uses of it: the SHA-256 digest and HMAC-SHA256, on bytes.
    [None] is the call that throws (a build without the digest). *)
Class Crypto : Type := {
  sha256 : list byte -> option (list byte);
  hmac_sha256 : list byte -> list byte -> option (list byte)
}.

Module Hex.

Definition digit (n : Z) : ascii :=
  if n <? 10 then ascii_of_N (Z.to_N (48 + n))
  else ascii_of_N (Z.to_N (87 + n)).

Definition of_byte (b : byte) : string :=
  let n := Z.of_N (Byte.to_N b) in
  String (digit (n / 16)) (String (digit (n mod 16)) "").

(** [digest('hex')]: two lowercase digits per byte. *)
Fixpoint encode (l : list byte) : string :=
  match l with
  | [] => ""
  | b :: l' => of_byte b ++ encode l'
  end.

End Hex.

(** SHA-256 (FIPS 180-4) and HMAC (RFC 2104), the instance of [Crypto] that
    an ordinary Node build provides. *)
Module Sha256.

Local Open Scope list_scope.

Definition w32 (x : Z) : Z := Z.land x 0xffffffff.
Definition add (x y : Z) : Z := w32 (x + y).
Definition rotr (n x : Z) : Z :=
  Z.lor (Z.shiftr x n) (w32 (Z.shiftl x (32 - n))).
Definition not32 (x : Z) : Z := 0xffffffff - x.

Definition Ch (x y z : Z) : Z := Z.lxor (Z.land x y) (Z.land (not32 x) z).
Definition Maj (x y z : Z) : Z :=
  Z.lxor (Z.lxor (Z.land x y) (Z.land x z)) (Z.land y z).
Definition Sigma0 (x : Z) : Z :=
  Z.lxor (Z.lxor (rotr 2 x) (rotr 13 x)) (rotr 22 x).
Definition Sigma1 (x : Z) : Z :=
  Z.lxor (Z.lxor (rotr 6 x) (rotr 11 x)) (rotr 25 x).
Definition sigma0 (x : Z) : Z :=
  Z.lxor (Z.lxor (rotr 7 x) (rotr 18 x)) (Z.shiftr x 3).
Definition sigma1 (x : Z) : Z :=
  Z.lxor (Z.lxor (rotr 17 x) (rotr 19 x)) (Z.shiftr x 10).

(** The first 64 primes. *)
Definition primes : list Z :=
  [2; 3; 5; 7; 11; 13; 17; 19; 23; 29; 31; 37; 41; 43; 47; 53; 59; 61; 67; 71;
   73; 79; 83; 89; 97; 101; 103; 107; 109; 113; 127; 131; 137; 139; 149; 151;
   157; 163; 167; 173; 179; 181; 191; 193; 197; 199; 211; 223; 227; 229; 233;
   239; 241; 251; 257; 263; 269; 271; 277; 281; 283; 293; 307; 311].

(** The integer cube root, bit by bit from [2 ^ bits] down. *)
Fixpoint cbrt_bits (bits : nat) (n r : Z) : Z :=
  match bits with
  | O => r
  | S b =>
      let r' := r + 2 ^ Z.of_nat b in
      cbrt_bits b n (if r' * r' * r' <=? n then r' else r)
  end.

(** The round constants: the first 32 bits of the fractional parts of the
    cube roots of the primes. *)
Definition K : list Z :=
  Eval vm_compute in
    List.map (fun p => w32 (cbrt_bits 36 (p * 2 ^ 96) 0)) primes.

(** The initial hash value: the same of the square roots of the first 8
    primes. *)
Definition H0 : list Z :=
  Eval vm_compute in
    List.map (fun p => w32 (Z.sqrt (p * 2 ^ 64))) (firstn 8 primes).

Definition byteZ (b : byte) : Z := Z.of_N (Byte.to_N b).
Definition Zbyte (z : Z) : byte :=
  match Byte.of_N (Z.to_N (z mod 256)) with
  | Some b => b
  | None => x00
  end.

(** Big-endian bytes of the low [8 * n] bits of [x]. *)
Fixpoint be_bytes (n : nat) (x : Z) : list Z :=
  match n with
  | O => []
  | S n' => (Z.shiftr x (8 * Z.of_nat n')) mod 256 :: be_bytes n' x
  end.

(** The message, a one bit, zeros up to 56 modulo 64, the bit length. *)
Definition pad (msg : list Z) : list Z :=
  let len := Z.of_nat (List.length msg) in
  let zeros := Z.to_nat ((55 - len) mod 64) in
  msg ++ [0x80] ++ List.repeat 0 zeros ++ be_bytes 8 (8 * len).

Fixpoint words (n : nat) (l : list Z) : list Z :=
  match n, l with
  | S n', a :: b :: c :: d :: l' =>
      (((a * 256 + b) * 256 + c) * 256 + d) :: words n' l'
  | _, _ => []
  end.

(** The message schedule, latest word first. *)
Fixpoint schedule (n : nat) (rev_w : list Z) : list Z :=
  match n with
  | O => rev_w
  | S n' =>
      let w :=
        add (add (sigma1 (nth 1 rev_w 0)) (nth 6 rev_w 0))
            (add (sigma0 (nth 14 rev_w 0)) (nth 15 rev_w 0)) in
      schedule n' (w :: rev_w)
  end.

Definition round (h : list Z) (kw : Z * Z) : list Z :=
  match h with
  | [a; b; c; d; e; f; g; hh] =>
      let t1 := add (add (add hh (Sigma1 e)) (add (Ch e f g) (fst kw))) (snd kw) in
      let t2 := add (Sigma0 a) (Maj a b c) in
      [add t1 t2; a; b; c; add d t1; e; f; g]
  | _ => h
  end.

Definition zip_add (h h' : list Z) : list Z :=
  List.map (fun p => add (fst p) (snd p)) (List.combine h h').

Definition compress (h : list Z) (block : list Z) : list Z :=
  let w := List.rev (schedule 48 (List.rev (words 16 block))) in
  zip_add h (List.fold_left round (List.combine K w) h).

Fixpoint blocks (n : nat) (h : list Z) (l : list Z) : list Z :=
  match n with
  | O => h
  | S n' => blocks n' (compress h (firstn 64 l)) (skipn 64 l)
  end.

Definition digestZ (msg : list Z) : list Z :=
  let p := pad msg in
  List.concat (List.map (be_bytes 4) (blocks (List.length p / 64) H0 p)).

Definition digest (msg : list byte) : list byte :=
  List.map Zbyte (digestZ (List.map byteZ msg)).

(** HMAC with a block of 64 bytes: a longer key is hashed first. *)
Definition hmacZ (key msg : list Z) : list Z :=
  let k := if (64 <? Z.of_nat (List.length key)) then digestZ key else key in
  let k := k ++ List.repeat 0 (64 - List.length k)%nat in
  let ipad := List.map (Z.lxor 0x36) k in
  let opad := List.map (Z.lxor 0x5c) k in
  digestZ (opad ++ digestZ (ipad ++ msg)).

Definition hmac (key msg : list byte) : list byte :=
  List.map Zbyte (hmacZ (List.map byteZ key) (List.map byteZ msg)).

End Sha256.

(** An ordinary build: both primitives are there. *)
Definition node_crypto : Crypto :=
  {| sha256 := fun m => Some (Sha256.digest m);
     hmac_sha256 := fun k m => Some (Sha256.hmac k m) |}.

(** A build whose OpenSSL has no SHA-256: every call throws. *)
Definition no_digest_crypto : Crypto :=
  {| sha256 := fun _ => None;
     hmac_sha256 := fun _ _ => None |}.

(** ** The [moment] library

    What [moment().format(...)] does for the three formats of the signer.
    [moment()] is in local mode: the fields are those of the local time of
    the process, and the names of days and months those of the global
    locale. An instant is a number of milliseconds since the epoch. *)

Module Moment.

Record Locale : Type := {
  weekdaysShort : Z -> string;   (* 0 is Sunday *)
  monthsShort : Z -> string      (* 1 is January *)
}.

Record Env : Type := {
  utcOffset : Z -> Z;            (* minutes east of UTC at an instant *)
  locale : Locale
}.

Definition en : Locale :=
  {| weekdaysShort := fun d =>
       nth (Z.to_nat d) ["Sun"; "Mon"; "Tue"; "Wed"; "Thu"; "Fri"; "Sat"] "";
     monthsShort := fun m =>
       nth (Z.to_nat (m - 1))
           ["Jan"; "Feb"; "Mar"; "Apr"; "May"; "Jun";
            "Jul"; "Aug"; "Sep"; "Oct"; "Nov"; "Dec"] "" |}.

(** A process in UTC with the default locale. *)
Definition utc : Env := {| utcOffset := fun _ => 0; locale := en |}.

(** A process at a fixed offset from UTC with the default locale. *)
Definition fixed_offset (minutes : Z) : Env :=
  {| utcOffset := fun _ => minutes; locale := en |}.

Record Fields : Type := {
  year : Z; month : Z; date : Z;
  hours : Z; minutes : Z; seconds : Z;
  day : Z
}.

(** The proleptic Gregorian date of a day number (days since 1970-01-01). *)
Definition civil (days : Z) : Z * Z * Z :=
  let z := days + 719468 in
  let era := z / 146097 in
  let doe := z mod 146097 in
  let yoe := (doe - doe / 1460 + doe / 36524 - doe / 146096) / 365 in
  let doy := doe - (365 * yoe + yoe / 4 - yoe / 100) in
  let mp := (5 * doy + 2) / 153 in
  let d := doy - (153 * mp + 2) / 5 + 1 in
  let m := if mp <? 10 then mp + 3 else mp - 9 in
  let y := yoe + era * 400 + (if m <=? 2 then 1 else 0) in
  (y, m, d).

Definition fields (env : Env) (t : Z) : Fields :=
  let secs := (t + utcOffset env t * 60000) / 1000 in
  let days := secs / 86400 in
  let sod := secs mod 86400 in
  let '(y, m, d) := civil days in
  {| year := y; month := m; date := d;
     hours := sod / 3600; minutes := sod mod 3600 / 60; seconds := sod mod 60;
     day := (days + 4) mod 7 |}.

Definition Number_toString (n : Z) : string :=
  NilZero.string_of_int (Z.to_int n).

Fixpoint zeros (n : nat) : string :=
  match n with
  | O => ""
  | S n' => String "0" (zeros n')
  end.

(** [zeroFill(number, targetLength)]. *)
Definition zeroFill (number : Z) (targetLength : nat) : string :=
  let absNumber := Number_toString (Z.abs number) in
  (if 0 <=? number then "" else "-")
    ++ zeros (targetLength - String.length absNumber) ++ absNumber.

Inductive token : Type :=
| YYYY | MMM | MM | DD | ddd | HH | mm | ss
| Lit (c : ascii).

(** The tokens of a format, for the tokens the signer's formats use; any
    other character is copied. [skip] characters belong to the token just
    read. *)
Fixpoint tokens (skip : nat) (fmt : string) : list token :=
  match fmt with
  | "" => []
  | String c rest =>
      match skip with
      | S k => tokens k rest
      | O =>
          if String.prefix "YYYY" fmt then YYYY :: tokens 3 rest
          else if String.prefix "MMM" fmt then MMM :: tokens 2 rest
          else if String.prefix "MM" fmt then MM :: tokens 1 rest
          else if String.prefix "DD" fmt then DD :: tokens 1 rest
          else if String.prefix "ddd" fmt then ddd :: tokens 2 rest
          else if String.prefix "HH" fmt then HH :: tokens 1 rest
          else if String.prefix "mm" fmt then mm :: tokens 1 rest
          else if String.prefix "ss" fmt then ss :: tokens 1 rest
          else Lit c :: tokens 0 rest
      end
  end.

Definition render (l : Locale) (f : Fields) (k : token) : string :=
  match k with
  | YYYY => zeroFill (year f) 4
  | MMM => monthsShort l (month f)
  | MM => zeroFill (month f) 2
  | DD => zeroFill (date f) 2
  | ddd => weekdaysShort l (day f)
  | HH => zeroFill (hours f) 2
  | mm => zeroFill (minutes f) 2
  | ss => zeroFill (seconds f) 2
  | Lit c => String c ""
  end.

(** [moment(t).format(fmt)] in the process [env]. *)
Definition format (env : Env) (t : Z) (fmt : string) : string :=
  String.concat "" (List.map (render (locale env) (fields env t)) (tokens 0 fmt)).

End Moment.

(** ** class SignatureFactory *)

Record Dates : Type := {
  usbldate : string;
  shortdate : string;
  longdate : string
}.

Record Headers : Type := {
  date : option string;
  Authorization : option string
}.

(** The value [sign()] returns. *)
Module Response.
Record t : Type := {
  headers : option Headers;
  url : option string
}.
End Response.

(** [{ id, params }]: the properties of [params] in enumeration order. *)
Record Query : Type := {
  id : option string;
  params : option (list (string * string))
}.

Module SignatureFactory.

(** The fields of the object; [url], [method], [queryParameters], [dates]
    and [headers] are [undefined] until a method assigns them. *)
Record t : Type := {
  accessKey : string;
  secretKey : string;
  host : string;
  url : option string;
  method : option string;
  queryParameters : option string;
  dates : option Dates;
  headers : option Headers
}.

Definition constructor (accessKey secretKey host : string) : t :=
  {| accessKey := accessKey; secretKey := secretKey; host := host;
     url := None; method := None; queryParameters := None;
     dates := None; headers := None |}.

Definition with_url (v : option string) (s : t) : t :=
  {| accessKey := accessKey s; secretKey := secretKey s; host := host s;
     url := v; method := method s; queryParameters := queryParameters s;
     dates := dates s; headers := headers s |}.

Definition with_method (v : option string) (s : t) : t :=
  {| accessKey := accessKey s; secretKey := secretKey s; host := host s;
     url := url s; method := v; queryParameters := queryParameters s;
     dates := dates s; headers := headers s |}.

Definition with_queryParameters (v : option string) (s : t) : t :=
  {| accessKey := accessKey s; secretKey := secretKey s; host := host s;
     url := url s; method := method s; queryParameters := v;
     dates := dates s; headers := headers s |}.

Definition with_dates (v : option Dates) (s : t) : t :=
  {| accessKey := accessKey s; secretKey := secretKey s; host := host s;
     url := url s; method := method s; queryParameters := queryParameters s;
     dates := v; headers := headers s |}.

Definition with_headers (v : option Headers) (s : t) : t :=
  {| accessKey := accessKey s; secretKey := secretKey s; host := host s;
     url := url s; method := method s; queryParameters := queryParameters s;
     dates := dates s; headers := v |}.

(** The state a method runs in: the object, and how often the clock of the
    process has been read so far. *)
Record World : Type := {
  this : t;
  reads : nat
}.

Definition M (A : Type) : Type := state_exn World A.

Definition read {A} (f : t -> result A) : M A := fun w => (f (this w), w).
Definition assign (f : t -> t) : M unit :=
  fun w => (Ok tt, {| this := f (this w); reads := reads w |}).

Section Methods.

Context {crypto : Crypto}.
Variable env : Moment.Env.
(** The instant the clock shows at its n-th reading. *)
Variable clock : nat -> Z.

Definition setUrl (url : string) : M unit :=
  assign (with_url (Some url)).

Definition setMethod (method : string) : M unit :=
  assign (with_method (Some method)).

(** [this.dates.f]: a [TypeError] while [this.dates] is [undefined]. *)
Definition the_dates (s : t) : result Dates :=
  match dates s with
  | Some d => Ok d
  | None => Throw TypeError
  end.

(** The object [{ date, host }] as a pair. *)
Definition getCanonicalHeaders (s : t) : result (string * string) :=
  (d <- the_dates s ;;
   Ok ("date:" ++ usbldate d, "host:" ++ host s ++ JS.LF))%result.

Inductive encoding : Type := hex.

(** What [digest(encoding)] returns: a [Buffer] without an encoding. *)
Definition digest_of (e : option encoding) : Type :=
  match e with
  | None => list byte
  | Some hex => string
  end.

Definition digest (e : option encoding) (b : option (list byte))
  : result (digest_of e) :=
  match b with
  | None => Throw CryptoError
  | Some b =>
      match e with
      | None => Ok b
      | Some hex => Ok (Hex.encode b)
      end
  end.

Definition hash (string : string) (e : option encoding) : result (digest_of e) :=
  digest e (sha256 (list_byte_of_string string)).

Definition canonicalString (s : t) : result string :=
  (let queryStr := queryParameters s in
   bodyHash <- hash "" (Some hex) ;;
   canonicalHeaders <- getCanonicalHeaders s ;;
   Ok (JS.join JS.LF
         [ Some (JS.or (method s) "GET");
           url s;
           queryStr;
           Some (fst canonicalHeaders);
           Some (snd canonicalHeaders);
           Some "date;host";
           Some bodyHash ]))%result.

Definition hmac (key : list byte) (string : string) (e : option encoding)
  : result (digest_of e) :=
  digest e (hmac_sha256 key (list_byte_of_string string)).

Definition stringToSign (s : t) : result string :=
  (d <- the_dates s ;;
   h <- (c <- canonicalString s ;; hash c (Some hex)) ;;
   Ok (JS.join JS.LF
         [ Some "USBL1-HMAC-SHA256";
           Some (longdate d);
           Some (shortdate d ++ "/" ++ "usbl1_request");
           Some h ]))%result.

Definition getSignature (s : t) : result string :=
  (d <- the_dates s ;;
   kDate <- hmac (list_byte_of_string ("USBL1" ++ secretKey s)) (shortdate d) None ;;
   kSigning <- hmac kDate "usbl1_request" None ;;
   sts <- stringToSign s ;;
   hmac kSigning sts (Some hex))%result.

Definition authHeader (s : t) : result string :=
  (d <- the_dates s ;;
   sig <- getSignature s ;;
   Ok (JS.join ", "
         [ Some ("USBL1-HMAC-SHA256 Credential=" ++ accessKey s ++ "/"
                   ++ shortdate d ++ "/" ++ "usbl1_request");
           Some ("SignedHeaders=" ++ "date;host");
           Some ("Signature=" ++ sig) ]))%result.

(** [moment()]: one reading of the clock. *)
Definition moment : M Z :=
  fun w => (Ok (clock (reads w)), {| this := this w; reads := S (reads w) |}).

Definition getDateTime : M Dates :=
  (t1 <- moment ;;
   let usbldate := Moment.format env t1 "ddd, DD MMM YYYY HH:mm:ss" ++ " GMT" in
   t2 <- moment ;;
   let shortdate := Moment.format env t2 "YYYYMMDD" in
   t3 <- moment ;;
   let longdate := Moment.format env t3 "YYYYMMDDTHHmmss" ++ "Z" in
   ret {| usbldate := usbldate; shortdate := shortdate; longdate := longdate |})%M.

(** [query.params[k]]. *)
Fixpoint lookup (k : string) (p : list (string * string)) : option string :=
  match p with
  | [] => None
  | (k', v) :: p' => if String.eqb k k' then Some v else lookup k p'
  end.

(** The loop over the sorted keys. *)
Fixpoint append_pairs (acc : string) (keys : list string)
         (p : list (string * string)) : string :=
  match keys with
  | [] => acc
  | k :: keys' =>
      append_pairs (acc ++ k ++ "=" ++ JS.ToString (lookup k p) ++ "&") keys' p
  end.

(** [this.url.replace]: a [TypeError] while [this.url] is [undefined]. *)
Definition the_url (s : t) : result string :=
  match url s with
  | Some u => Ok u
  | None => Throw TypeError
  end.

(** Returns the query object as the call leaves it: [query.id] is
    overwritten when it is the wildcard. *)
Definition handleQuery (query : Query) : M Query :=
  (query <-
     (if JS.truthy (id query) then            (* query.id && query.id != '' *)
        let query :=
          if String.eqb (JS.elem (id query)) "*"
          then {| id := Some "%2A"; params := params query |}
          else query in
        u <- read the_url ;;
        assign (with_url (Some (JS.replace u ":id" (JS.elem (id query))))) ;;
        ret query
      else ret query) ;;
   match params query with                    (* !!query.params *)
   | Some p =>
       let params := JS.sort (List.map fst p) in
       assign (with_queryParameters (Some "")) ;;
       assign (fun s => with_queryParameters
                          (Some (append_pairs (JS.elem (queryParameters s)) params p)) s) ;;
       assign (fun s => with_queryParameters
                          (Some (JS.slice_0_m1 (JS.elem (queryParameters s)))) s) ;;
       ret query
   | None => ret query
   end)%M.

Definition sign : M Response.t :=
  (d <- getDateTime ;;
   assign (with_dates (Some d)) ;;
   (* this.headers = {} *)
   assign (with_headers (Some {| date := None; Authorization := None |})) ;;
   (* this.headers.date = this.dates.usbldate *)
   d <- read the_dates ;;
   assign (with_headers (Some {| date := Some (usbldate d); Authorization := None |})) ;;
   (* this.headers.Authorization = this.authHeader() *)
   a <- read authHeader ;;
   assign (with_headers (Some {| date := Some (usbldate d); Authorization := Some a |})) ;;
   s <- read Ok ;;
   let response := {| Response.headers := headers s; Response.url := url s |} in
   if JS.truthy (queryParameters s) then
     ret {| Response.headers := Response.headers response;
            Response.url := Some (JS.ToString (Response.url response) ++ "?"
                                    ++ JS.elem (queryParameters s)) |}
   else ret response)%M.

End Methods.

End SignatureFactory.

(** ** class Resource and its subclasses *)

Module Resource.

Record Config : Type := {
  protocol : string;
  host : string
}.

(** The [signatureFactory] field is a reference: every resource of a
    client holds the same object, the one of the [World] that [get] runs
    in. *)
Record t : Type := {
  config : Config;
  url : string
}.

Definition constructor (url : string) : t :=
  {| config := {| protocol := "https"; host := "data.usabilla.com" |};
     url := url |}.

Definition getBaseUrl (r : t) : string :=
  protocol (config r) ++ "://" ++ host (config r).

(** The argument [get] hands to [request]. *)
Record Options : Type := {
  options_url : string;
  options_headers : option Headers
}.

Section Get.

Context {crypto : Crypto}.
Variable env : Moment.Env.
Variable clock : nat -> Z.

(** [get(query)] up to the request it issues. *)
Definition get (r : t) (query : option Query) : SignatureFactory.M Options :=
  (let query := match query with
                | Some q => q
                | None => {| id := None; params := None |}
                end in
   SignatureFactory.setUrl (url r) ;;
   _ <- SignatureFactory.handleQuery query ;;
   signature <- SignatureFactory.sign env clock ;;
   ret {| options_url := getBaseUrl r ++ JS.ToString (Response.url signature);
          options_headers := Response.headers signature |})%M.

End Get.

End Resource.

Module CampaignsResultsResource.
Definition constructor (base : string) : Resource.t :=
  let baseUrl := base ++ "/:id/results" in
  Resource.constructor baseUrl.
End CampaignsResultsResource.

Module CampaignsStatsResource.
Definition constructor (base : string) : Resource.t :=
  let baseUrl := base ++ "/:id/stats" in
  Resource.constructor baseUrl.
End CampaignsStatsResource.

Module CampaignsResource.
Record t : Type := {
  self : Resource.t;
  results : Resource.t;
  stats : Resource.t
}.
Definition constructor (base : string) : t :=
  let baseUrl := base ++ "/campaign" in
  {| self := Resource.constructor baseUrl;
     results := CampaignsResultsResource.constructor baseUrl;
     stats := CampaignsStatsResource.constructor baseUrl |}.
End CampaignsResource.

Module ButtonFeedbackResource.
Definition constructor (base : string) : Resource.t :=
  Resource.constructor (base ++ "/:id/feedback").
End ButtonFeedbackResource.

Module ButtonsResource.
Record t : Type := {
  self : Resource.t;
  feedback : Resource.t
}.
Definition constructor (base : string) : t :=
  let baseUrl := base ++ "/button" in
  {| self := Resource.constructor baseUrl;
     feedback := ButtonFeedbackResource.constructor baseUrl |}.
End ButtonsResource.

Module WebsitesProduct.
Record t : Type := {
  buttons : ButtonsResource.t;
  campaigns : CampaignsResource.t
}.
Definition constructor (base : string) : t :=
  let baseUrl := base ++ "/websites" in
  {| buttons := ButtonsResource.constructor baseUrl;
     campaigns := CampaignsResource.constructor baseUrl |}.
End WebsitesProduct.

(** ** class Usabilla *)

Module Usabilla.

Record t : Type := {
  config : gmap string string;
  websites : WebsitesProduct.t
}.

(** A client at work: the object, and the world of the one
    [SignatureFactory] that its constructor allocates and that all its
    resources share. *)
Record State : Type := {
  client : t;
  world : SignatureFactory.World
}.

Definition constructor (accessKey secretKey : string) : State :=
  let config : gmap string string :=
    <["method" := "GET"]> (<["host" := "data.usabilla.com"]>
      (<["protocol" := "https"]> ∅)) in
  let signatureFactory :=
    SignatureFactory.constructor accessKey secretKey
      (JS.ToString (config !! "host")) in
  {| client := {| config := config;
                  websites := WebsitesProduct.constructor "/live" |};
     world := {| SignatureFactory.this := signatureFactory;
                 SignatureFactory.reads := O |} |}.

(** [assign(this.config, options)]: the properties of [options] are copied
    over those of [this.config]. *)
Definition configure (options : gmap string string) (u : t) : t :=
  {| config := options ∪ config u; websites := websites u |}.

(** The resources a caller reaches from a client. *)
Inductive path : Type :=
| buttons
| buttons_feedback
| campaigns
| campaigns_results
| campaigns_stats.

Definition resource (u : t) (p : path) : Resource.t :=
  match p with
  | buttons => ButtonsResource.self (WebsitesProduct.buttons (websites u))
  | buttons_feedback => ButtonsResource.feedback (WebsitesProduct.buttons (websites u))
  | campaigns => CampaignsResource.self (WebsitesProduct.campaigns (websites u))
  | campaigns_results => CampaignsResource.results (WebsitesProduct.campaigns (websites u))
  | campaigns_stats => CampaignsResource.stats (WebsitesProduct.campaigns (websites u))
  end.

(** What a caller does with a client. *)
Inductive call : Type :=
| Configure (options : gmap string string)
| Get (p : path) (query : option Query).

Section Run.

Context {crypto : Crypto}.
Variable env : Moment.Env.
Variable clock : nat -> Z.

(** One call: the request issued by a [get], and the state it leaves. *)
Definition step (c : call) (s : State)
  : option (result Resource.Options) * State :=
  match c with
  | Configure options =>
      (None, {| client := configure options (client s); world := world s |})
  | Get p query =>
      let '(r, w) := Resource.get env clock (resource (client s) p) query (world s) in
      (Some r, {| client := client s; world := w |})
  end.

(** A sequence of calls: the requests issued, in order. *)
Fixpoint run (cs : list call) (s : State)
  : list (result Resource.Options) * State :=
  match cs with
  | [] => ([], s)
  | c :: cs' =>
      let '(o, s') := step c s in
      let '(os, s'') := run cs' s' in
      (match o with Some r => r :: os | None => os end, s'')
  end.

End Run.

End Usabilla.

(** ** The protocol in the words of the specification

    The reference formulations that the methods above are compared with. *)

Definition of_option {A} (o : option A) : result A :=
  match o with
  | Some a => Ok a
  | None => Throw CryptoError
  end.

Module Spec.

Definition bytes (s : string) : list byte := list_byte_of_string s.

Definition newline : string := JS.LF.

(** An unset method (none, or the empty string) is a GET. *)
Definition method_or_default (method : option string) : string :=
  match method with
  | None => "GET"
  | Some m => if String.eqb m "" then "GET" else m
  end.

Section Primitives.

Context {crypto : Crypto}.

(** Method, path, query string, date line, host line with its own newline,
    the signed headers and the hash of the empty body, joined by
    newlines. *)
Definition canonicalString (method : option string)
           (path queryString dateHeaderValue host : string) : option string :=
  match sha256 (bytes "") with
  | Some h =>
      Some (String.concat newline
              [ method_or_default method;
                path;
                queryString;
                "date:" ++ dateHeaderValue;
                "host:" ++ host ++ newline;
                "date;host";
                Hex.encode h ])
  | None => None
  end.

Definition stringToSign (longdate shortdate canonicalHash : string) : string :=
  String.concat newline
    [ "USBL1-HMAC-SHA256"; longdate; shortdate ++ "/usbl1_request"; canonicalHash ].

(** The chain of three HMACs. *)
Definition signature (secretKey shortdate longdate canonical : string)
  : option string :=
  match hmac_sha256 (bytes ("USBL1" ++ secretKey)) (bytes shortdate) with
  | Some kDate =>
      match hmac_sha256 kDate (bytes "usbl1_request") with
      | Some kSigning =>
          match sha256 (bytes canonical) with
          | Some h =>
              match hmac_sha256 kSigning
                      (bytes (stringToSign longdate shortdate (Hex.encode h))) with
              | Some sig => Some (Hex.encode sig)
              | None => None
              end
          | None => None
          end
      | None => None
      end
  | None => None
  end.

(** The signature of a request: its canonical string, signed. It is there
    when every call of a primitive succeeds. *)
Definition request_signature (secretKey : string) (method : option string)
           (path queryString host : string) (d : Dates) : option string :=
  match canonicalString method path queryString (usbldate d) host with
  | Some c => signature secretKey (shortdate d) (longdate d) c
  | None => None
  end.

End Primitives.

Definition authorization (accessKey shortdate signature : string) : string :=
  "USBL1-HMAC-SHA256 Credential=" ++ accessKey ++ "/" ++ shortdate
    ++ "/usbl1_request, SignedHeaders=date;host, Signature=" ++ signature.

(** The path, with the query string after a question mark when there is
    one. *)
Definition signed_url (path : string) (queryString : option string) : string :=
  match queryString with
  | Some q => if String.eqb q "" then path else path ++ "?" ++ q
  | None => path
  end.

(** The text [v] put in place of the first [:id] of the template. *)
Definition substitute (template v : string) : string :=
  match JS.search ":id" template with
  | Some (before, after) => before ++ v ++ after
  | None => template
  end.

Definition resolvePath (template : string) (id : option string) : string :=
  match id with
  | None => template
  | Some i =>
      if String.eqb i "" then template
      else if String.eqb i "*" then substitute template "%2A"
      else substitute template i
  end.

Definition key_le (a b : string * string) : Prop := String.le (fst a) (fst b).

#[global] Instance key_le_dec : RelDecision key_le.
Proof. intros a b. unfold key_le. apply _. Defined.

(** The pairs in the order of their keys, as [key=value] joined by [&]. *)
Definition buildQueryString (params : list (string * string)) : string :=
  String.concat "&"
    (List.map (fun kv => fst kv ++ "=" ++ snd kv) (merge_sort key_le params)).

(** One instant in the three forms. *)
Definition snapshot (env : Moment.Env) (t : Z) : Dates :=
  {| usbldate := Moment.format env t "ddd, DD MMM YYYY HH:mm:ss" ++ " GMT";
     shortdate := Moment.format env t "YYYYMMDD";
     longdate := Moment.format env t "YYYYMMDDTHHmmss" ++ "Z" |}.

End Spec.

(** ** Auxiliary definitions of the proofs *)

(** One [key=value] of the query string, as the loop of [handleQuery] reads
    it. *)
Definition pair_of (p : list (string * string)) (k : string) : string :=
  k ++ "=" ++ JS.ToString (SignatureFactory.lookup k p).

(** The dates [getDateTime] assembles when the clock has been read [n]
    times. *)
Definition dates_read (env : Moment.Env) (clock : nat -> Z) (n : nat) : Dates :=
  {| usbldate := Moment.format env (clock n) "ddd, DD MMM YYYY HH:mm:ss" ++ " GMT";
     shortdate := Moment.format env (clock (S n)) "YYYYMMDD";
     longdate := Moment.format env (clock (S (S n))) "YYYYMMDDTHHmmss" ++ "Z" |}.

(** The object as [sign] leaves it when the signature cannot be computed:
    the dates of the call, and headers without [Authorization]. *)
Definition half_signed (d : Dates) (s : SignatureFactory.t) : SignatureFactory.t :=
  SignatureFactory.with_headers
    (Some {| date := Some (usbldate d); Authorization := None |})
    (SignatureFactory.with_dates (Some d) s).

(** The object as [sign] leaves it on success. *)
Definition signed (d : Dates) (a : string) (s : SignatureFactory.t)
  : SignatureFactory.t :=
  SignatureFactory.with_headers
    (Some {| date := Some (usbldate d); Authorization := Some a |})
    (SignatureFactory.with_dates (Some d) s).

(** The text [handleQuery] substitutes for an id. *)
Definition resolved_id (i : string) : string :=
  if String.eqb i "*" then "%2A" else i.

(** What [handleQuery] does to [queryParameters]. *)
Definition with_params (params : option (list (string * string)))
           (s : SignatureFactory.t) : SignatureFactory.t :=
  match params with
  | Some p =>
      SignatureFactory.with_queryParameters
        (Some (JS.slice_0_m1
                 (SignatureFactory.append_pairs "" (JS.sort (List.map fst p)) p))) s
  | None => s
  end.

(** A dollar sign occurs in the text. *)
Fixpoint has_dollar (s : string) : bool :=
  match s with
  | "" => false
  | String c s' => Ascii.eqb c "$" || has_dollar s'
  end.

(** A sequence of calls without its [configure] calls. *)
Fixpoint without_configure (cs : list Usabilla.call) : list Usabilla.call :=
  match cs with
  | [] => []
  | Usabilla.Configure _ :: cs' => without_configure cs'
  | c :: cs' => c :: without_configure cs'
  end.

(** The fields that no method of the factory assigns after construction
    have the same values in both objects. *)
Definition same_constants (s s' : SignatureFactory.t) : Prop :=
  SignatureFactory.accessKey s' = SignatureFactory.accessKey s
  /\ SignatureFactory.secretKey s' = SignatureFactory.secretKey s
  /\ SignatureFactory.host s' = SignatureFactory.host s
  /\ SignatureFactory.method s' = SignatureFactory.method s.

(** The signing side of a client is as its constructor built it: the host
    and the unset method of the factory, and the tree of resources. *)
Definition as_constructed (s : Usabilla.State) : Prop :=
  SignatureFactory.host (SignatureFactory.this (Usabilla.world s)) = "data.usabilla.com"
  /\ SignatureFactory.method (SignatureFactory.this (Usabilla.world s)) = None
  /\ Usabilla.websites (Usabilla.client s) = WebsitesProduct.constructor "/live".

(** The URL of a request, when there is one. *)
Definition url_of (r : result Resource.Options) : option string :=
  match r with
  | Ok o => Some (Resource.options_url o)
  | Throw _ => None
  end.

(** The request of the end-to-end scenario, as the factory holds it when it
    signs at 2017-01-02T15:04:05Z. *)
Definition example_dates : Dates :=
  {| usbldate := "Mon, 02 Jan 2017 15:04:05 GMT";
     shortdate := "20170102";
     longdate := "20170102T150405Z" |}.

Definition example_factory : SignatureFactory.t :=
  {| SignatureFactory.accessKey := "AK";
     SignatureFactory.secretKey := "SK";
     SignatureFactory.host := "data.usabilla.com";
     SignatureFactory.url := Some "/live/websites/button/42/feedback";
     SignatureFactory.method := None;
     SignatureFactory.queryParameters := Some "limit=5";
     SignatureFactory.dates := Some example_dates;
     SignatureFactory.headers := None |}.

(** The same request before [sign] is called for the first time. *)
Definition example_world : SignatureFactory.World :=
  {| SignatureFactory.this := SignatureFactory.with_dates None example_factory;
     SignatureFactory.reads := 0 |}.

Definition example_instant : Z := 1483369445000.

Definition example_path : string := "/live/websites/button/42/feedback".

Definition example_canonical : string :=
  "GET
/live/websites/button/42/feedback
limit=5
date:Mon, 02 Jan 2017 15:04:05 GMT
host:data.usabilla.com

date;host
e3b0c44298fc1c149afbf4c8996fb92427ae41e4649b934ca495991b7852b855".

Definition example_signature : string :=
  "fc10acc1cf374dec36b73d99559e538f77d2ff92f853bc784606a28265686692".

(** A request goes to the host of the service over https. *)
Definition to_usabilla (r : result Resource.Options) : Prop :=
  match r with
  | Ok o => String.prefix "https://data.usabilla.com/" (Resource.options_url o) = true
  | Throw _ => True
  end.

(** A clock that stands still. *)
Definition frozen (t : Z) : nat -> Z := fun _ => t.

(** A clock that shows [t] at its first reading and [t'] from then on. *)
Definition ticking (t t' : Z) : nat -> Z :=
  fun n => match n with O => t | S _ => t' end.

(** ** Definitions of the further properties *)


(** Two factories hold the same request: they agree on every field but
    [dates] and [headers]. *)
Definition same_request (s1 s2 : SignatureFactory.t) : Prop :=
  SignatureFactory.accessKey s1 = SignatureFactory.accessKey s2
  /\ SignatureFactory.secretKey s1 = SignatureFactory.secretKey s2
  /\ SignatureFactory.host s1 = SignatureFactory.host s2
  /\ SignatureFactory.url s1 = SignatureFactory.url s2
  /\ SignatureFactory.method s1 = SignatureFactory.method s2
  /\ SignatureFactory.queryParameters s1 = SignatureFactory.queryParameters s2.

(** The path [handleQuery] leaves in [this.url] for a template and an id. *)
Definition replaced_url (template : string) (i : option string) : string :=
  if JS.truthy i then JS.replace template ":id" (resolved_id (JS.elem i))
  else template.

(** No colon occurs in the text. *)
Fixpoint no_colon (s : string) : bool :=
  match s with
  | "" => true
  | String c s' => negb (Ascii.eqb c ":") && no_colon s'
  end.



(** A [configure] call of the sequence names the key. *)
Fixpoint mentions (k : string) (cs : list Usabilla.call) : bool :=
  match cs with
  | [] => false
  | Usabilla.Configure options :: cs' =>
      match options !! k with
      | Some _ => true
      | None => mentions k cs'
      end
  | Usabilla.Get _ _ :: cs' => mentions k cs'
  end.

(** [check] holds of the [n] integers from [z] on. *)
Fixpoint all_from (check : Z -> bool) (n : nat) (z : Z) : bool :=
  match n with
  | O => true
  | S n' => check z && all_from check n' (z + 1)
  end.

(** The month and the day of the month of a day number are in range. *)
Definition month_and_date_in_range (days : Z) : bool :=
  let '(_, m, d) := Moment.civil days in
  (1 <=? m) && (m <=? 12) && (1 <=? d) && (d <=? 31).

(** [zeroFill] gives a number of this range exactly [width] characters. *)
Definition zeroFill_has_width (width : nat) (n : Z) : bool :=
  Nat.eqb (String.length (Moment.zeroFill n width)) width.

(** The query and the resource of the end-to-end scenario. *)
Definition example_query : Query :=
  {| id := Some "42"; params := Some [("limit", "5")] |}.


(** The factory after some other request. *)
Definition stale_world : SignatureFactory.World :=
  {| SignatureFactory.this :=
       SignatureFactory.with_queryParameters (Some "since=0")
         (SignatureFactory.with_url (Some "/live/websites/campaign") example_factory);
     SignatureFactory.reads := 0 |}.

(** * Properties *)

(** ** The primitives on test vectors *)

Example sha256_empty :
  Hex.encode (Sha256.digest []) =
  "e3b0c44298fc1c149afbf4c8996fb92427ae41e4649b934ca495991b7852b855".
Proof. vm_compute. reflexivity. Qed.

Example sha256_abc :
  Hex.encode (Sha256.digest (list_byte_of_string "abc")) =
  "ba7816bf8f01cfea414140de5dae2223b00361a396177a9cb410ff61f20015ad".
Proof. vm_compute. reflexivity. Qed.

Example sha256_two_blocks :
  Hex.encode (Sha256.digest (List.repeat "a"%byte 100)) =
  "2816597888e4a0d3a36b82b83316ab32680eb8f00f8cd3b904d681246d285a0e".
Proof. vm_compute. reflexivity. Qed.

Example hmac_kDate :
  Hex.encode (Sha256.hmac (list_byte_of_string "USBL1k") (list_byte_of_string "20170102")) =
  "849901aad7ac24fa1fdadc361a9487c69bacc3257e97ae56bc677890b77851e4".
Proof. vm_compute. reflexivity. Qed.

Example hmac_long_key :
  Hex.encode (Sha256.hmac (List.repeat "k"%byte 100) (list_byte_of_string "msg")) =
  "bd56a1782c2830e8abc6ed866a57a1230661e650b84c62f7ee3accc5fa5af491".
Proof. vm_compute. reflexivity. Qed.

(** ** Strings *)

Lemma append_cons (c : ascii) (a b : string) : String c a ++ b = String c (a ++ b).
Proof. reflexivity. Qed.

Lemma append_nil_l (s : string) : "" ++ s = s.
Proof. reflexivity. Qed.

Lemma append_nil_r (s : string) : s ++ "" = s.
Proof. induction s as [|c s IH]; [reflexivity|]. by rewrite append_cons, IH. Qed.

Lemma append_assoc (a b c : string) : (a ++ b) ++ c = a ++ (b ++ c).
Proof. induction a as [|x a IH]; [reflexivity|]. by rewrite !append_cons, IH. Qed.

Lemma slice_0_m1_append (a b : string) :
  b <> "" -> JS.slice_0_m1 (a ++ b) = a ++ JS.slice_0_m1 b.
Proof.
  intros Hb. induction a as [|c a IH]; [reflexivity|].
  rewrite !append_cons. cbn [JS.slice_0_m1]. rewrite IH.
  destruct (a ++ b) eqn:E; [|reflexivity].
  destruct a; [rewrite append_nil_l in E; contradiction | discriminate E].
Qed.

Lemma slice_0_m1_snoc (a : string) (c : ascii) :
  JS.slice_0_m1 (a ++ String c "") = a.
Proof. rewrite slice_0_m1_append by discriminate. apply append_nil_r. Qed.

Lemma concat_empty_cons (x : string) (l : list string) :
  String.concat "" (x :: l) = x ++ String.concat "" l.
Proof.
  destruct l; cbn [String.concat]; [by rewrite append_nil_r | by rewrite append_nil_l].
Qed.

(** ** Sorting the keys *)

Lemma sort_Sorted (l : list string) : Sorted String.le (JS.sort l).
Proof. apply (Sorted_merge_sort String.le). Qed.

Lemma sort_Permutation (l : list string) : JS.sort l ≡ₚ l.
Proof. apply (merge_sort_Permutation String.le). Qed.

(** The sorted array is the only sorted arrangement of the keys. *)
Lemma sort_unique (l l' : list string) :
  Sorted String.le l' -> l' ≡ₚ l -> JS.sort l = l'.
Proof.
  intros Hs Hp. apply (Sorted_unique String.le); [apply sort_Sorted|exact Hs|].
  rewrite sort_Permutation. by symmetry.
Qed.

Lemma sort_permutation_invariant (l l' : list string) :
  l ≡ₚ l' -> JS.sort l = JS.sort l'.
Proof.
  intros Hp. apply sort_unique; [apply sort_Sorted|].
  rewrite sort_Permutation. by symmetry.
Qed.

(** ** The query string *)

Section QueryString.

Import SignatureFactory.

Lemma append_pairs_concat (acc : string) (keys : list string) p :
  append_pairs acc keys p
  = acc ++ String.concat "" (List.map (fun k => pair_of p k ++ "&") keys).
Proof.
  revert acc. induction keys as [|k keys IH]; intros acc.
  - cbn. by rewrite append_nil_r.
  - cbn [append_pairs List.map]. rewrite IH, concat_empty_cons.
    unfold pair_of. by rewrite !append_assoc.
Qed.

Lemma slice_0_m1_concat (f : string -> string) (keys : list string) :
  JS.slice_0_m1 (String.concat "" (List.map (fun k => f k ++ "&") keys))
  = String.concat "&" (List.map f keys).
Proof.
  induction keys as [|k keys IH]; [reflexivity|].
  cbn [List.map]. rewrite concat_empty_cons.
  destruct keys as [|k' keys].
  - cbn [List.map String.concat]. rewrite append_nil_r. apply slice_0_m1_snoc.
  - rewrite append_assoc, slice_0_m1_append.
    + rewrite slice_0_m1_append, IH; [reflexivity|].
      cbn [List.map]. rewrite concat_empty_cons.
      destruct (f k'); discriminate.
    + discriminate.
Qed.

(** What the loop and the final [slice] leave in [queryParameters]. *)
Lemma built_query_string (p : list (string * string)) :
  JS.slice_0_m1 (append_pairs "" (JS.sort (List.map fst p)) p)
  = String.concat "&" (List.map (pair_of p) (JS.sort (List.map fst p))).
Proof. by rewrite append_pairs_concat, append_nil_l, slice_0_m1_concat. Qed.

End QueryString.

(** ** Canonical string, string to sign and signature *)

Section Signing.

Import SignatureFactory.
Context {crypto : Crypto}.

Lemma join_concat (sep : string) (l : list (option string)) :
  JS.join sep l = String.concat sep (List.map JS.elem l).
Proof.
  induction l as [|x l IH]; [reflexivity|].
  destruct l as [|y l]; [reflexivity|].
  cbn [JS.join List.map String.concat] in *. by rewrite IH.
Qed.

Lemma or_method_or_default (m : option string) :
  JS.or m "GET" = Spec.method_or_default m.
Proof.
  destruct m as [m|]; [|reflexivity].
  unfold JS.or, Spec.method_or_default, JS.truthy.
  by destruct (String.eqb m "").
Qed.

Lemma canonicalString_eq (s : t) (d : Dates) :
  dates s = Some d ->
  canonicalString s
  = of_option (Spec.canonicalString (method s) (JS.elem (url s))
                 (JS.elem (queryParameters s)) (usbldate d) (host s)).
Proof.
  intros Hd. unfold canonicalString, Spec.canonicalString, hash, digest,
    getCanonicalHeaders, the_dates.
  rewrite Hd. change (Spec.bytes "") with (list_byte_of_string "").
  destruct (sha256 (list_byte_of_string "")) as [h|]; [|reflexivity].
  cbn [rbind of_option fst snd]. rewrite join_concat, or_method_or_default.
  reflexivity.
Qed.

Lemma stringToSign_eq (s : t) (d : Dates) (c : string) :
  dates s = Some d ->
  canonicalString s = Ok c ->
  stringToSign s
  = rbind (of_option (sha256 (Spec.bytes c)))
      (fun h => Ok (Spec.stringToSign (longdate d) (shortdate d) (Hex.encode h))).
Proof.
  intros Hd Hc. unfold stringToSign, the_dates, hash, digest.
  rewrite Hd, Hc. cbn [rbind]. unfold Spec.bytes.
  destruct (sha256 (list_byte_of_string c)) as [h|]; [|reflexivity].
  cbn [rbind of_option]. by rewrite join_concat.
Qed.

Lemma getSignature_eq (s : t) (d : Dates) (c : string) :
  dates s = Some d ->
  canonicalString s = Ok c ->
  getSignature s
  = of_option (Spec.signature (secretKey s) (shortdate d) (longdate d) c).
Proof.
  intros Hd Hc. unfold getSignature, Spec.signature, hmac, digest, the_dates.
  rewrite Hd, (stringToSign_eq s d c Hd Hc). cbn [rbind]. unfold Spec.bytes.
  destruct (hmac_sha256 _ (list_byte_of_string (shortdate d))) as [kDate|];
    [|reflexivity].
  cbn [rbind].
  destruct (hmac_sha256 kDate _) as [kSigning|]; [|reflexivity].
  cbn [rbind].
  destruct (sha256 (list_byte_of_string c)) as [h|]; [|reflexivity].
  cbn [rbind of_option].
  by destruct (hmac_sha256 kSigning _).
Qed.

(** The signature is there exactly when every primitive succeeds. *)
Lemma getSignature_request (s : t) (d : Dates) :
  dates s = Some d ->
  getSignature s
  = of_option (Spec.request_signature (secretKey s) (method s) (JS.elem (url s))
                 (JS.elem (queryParameters s)) (host s) d).
Proof.
  intros Hd. unfold Spec.request_signature.
  pose proof (canonicalString_eq s d Hd) as Hc.
  destruct (Spec.canonicalString _ _ _ _ _) as [c|]; cbn [of_option] in *.
  - by apply getSignature_eq.
  - unfold getSignature, stringToSign, the_dates. rewrite Hd, Hc. cbn [rbind].
    destruct (hmac _ (shortdate d) None) as [kDate|[]] eqn:E1; cbn [rbind];
      [|by (unfold hmac, digest in E1; destruct (hmac_sha256 _ _))|reflexivity].
    destruct (hmac kDate "usbl1_request" None) as [kSigning|[]] eqn:E2; cbn [rbind];
      [reflexivity|by (unfold hmac, digest in E2; destruct (hmac_sha256 _ _))|reflexivity].
Qed.

(** The methods that [sign] calls read neither [headers] nor the clock. *)
Lemma getSignature_with_headers (h : option Headers) (s : t) :
  getSignature (with_headers h s) = getSignature s.
Proof. reflexivity. Qed.

Lemma authorization_eq (accessKey shortdate sig : string) :
  JS.join ", "
    [ Some ("USBL1-HMAC-SHA256 Credential=" ++ accessKey ++ "/"
              ++ shortdate ++ "/" ++ "usbl1_request");
      Some ("SignedHeaders=" ++ "date;host");
      Some ("Signature=" ++ sig) ]
  = Spec.authorization accessKey shortdate sig.
Proof.
  unfold Spec.authorization. cbn [JS.join JS.elem].
  by rewrite !append_assoc.
Qed.

Variable env : Moment.Env.
Variable clock : nat -> Z.

Lemma getDateTime_eq (w : World) :
  getDateTime env clock w
  = (Ok (dates_read env clock (reads w)),
     {| this := this w; reads := S (S (S (reads w))) |}).
Proof. reflexivity. Qed.

Lemma sign_eq (w : World) :
  let d := dates_read env clock (reads w) in
  let n := S (S (S (reads w))) in
  sign env clock w
  = match getSignature (with_dates (Some d) (this w)) with
    | Ok sig =>
        let a := Spec.authorization (accessKey (this w)) (shortdate d) sig in
        (Ok {| Response.headers :=
                 Some {| date := Some (usbldate d); Authorization := Some a |};
               Response.url :=
                 if JS.truthy (queryParameters (this w))
                 then Some (JS.ToString (url (this w)) ++ "?"
                              ++ JS.elem (queryParameters (this w)))
                 else url (this w) |},
         {| this := signed d a (this w); reads := n |})
    | Throw e =>
        (Throw e, {| this := half_signed d (this w); reads := n |})
    end.
Proof.
  intros d n. unfold sign. unfold bind at 1. rewrite getDateTime_eq.
  fold d n. unfold bind, assign, read, ret, authHeader, the_dates.
  cbn [this reads dates with_dates with_headers rbind].
  rewrite !getSignature_with_headers.
  fold (with_dates (Some d) (this w)).
  destruct (getSignature (with_dates (Some d) (this w))) as [sig|e];
    cbn [rbind]; [|reflexivity].
  cbn [this reads queryParameters url headers accessKey with_headers with_dates
       Response.url Response.headers].
  rewrite authorization_eq.
  destruct (JS.truthy (queryParameters (this w))); reflexivity.
Qed.

End Signing.

(** ** handleQuery *)

Section HandleQuery.

Import SignatureFactory.

Lemma handleQuery_eq (q : Query) (w : World) :
  handleQuery q w
  = if JS.truthy (id q) then
      match url (this w) with
      | Some u =>
          let i := resolved_id (JS.elem (id q)) in
          (Ok {| id := Some i; params := params q |},
           {| this := with_params (params q)
                        (with_url (Some (JS.replace u ":id" i)) (this w));
              reads := reads w |})
      | None => (Throw TypeError, w)
      end
    else (Ok q, {| this := with_params (params q) (this w); reads := reads w |}).
Proof.
  destruct w as [s n], q as [[i|] p]; [|by destruct p].
  unfold handleQuery, bind, read, assign, ret, with_params, resolved_id, the_url.
  cbv beta iota zeta delta [this reads id params JS.truthy JS.elem].
  destruct (String.eqb i ""); cbv beta iota zeta delta [negb]; [by destruct p|].
  destruct (url s) as [u|]; [|reflexivity].
  destruct (String.eqb i "*"), p; reflexivity.
Qed.

(** A replacement text without a dollar sign is inserted as it is. *)
Lemma GetSubstitution_verbatim (matched before after repl : string) :
  has_dollar repl = false ->
  JS.GetSubstitution matched before after repl = repl.
Proof.
  induction repl as [|c r IH]; [reflexivity|].
  cbn [has_dollar]. intros [Hc Hr]%orb_false_elim.
  cbn [JS.GetSubstitution].
  destruct (Ascii.eqb_spec c "$") as [->|Hne]; [discriminate Hc|].
  rewrite (IH Hr).
  destruct c as [[] [] [] [] [] [] [] []]; try reflexivity.
  by destruct Hne.
Qed.

Lemma replace_verbatim (template v : string) :
  has_dollar v = false ->
  JS.replace template ":id" v = Spec.substitute template v.
Proof.
  intros Hv. unfold JS.replace, Spec.substitute.
  destruct (JS.search ":id" template) as [[before after]|]; [|reflexivity].
  by rewrite GetSubstitution_verbatim.
Qed.

Lemma lookup_In (p : list (string * string)) (k v : string) :
  NoDup (List.map fst p) -> In (k, v) p -> lookup k p = Some v.
Proof.
  induction p as [|[k' v'] p IH]; [intros _ []|].
  cbn [List.map fst lookup]. intros Hnd Hin.
  apply NoDup_cons in Hnd as [Hk' Hnd].
  destruct Hin as [[= -> ->]|Hin].
  - by rewrite String.eqb_refl.
  - destruct (String.eqb_spec k k') as [->|_]; [|by apply IH].
    destruct Hk'. apply list_elem_of_In, in_map_iff. by exists (k', v).
Qed.




Lemma lookup_Permutation (p p' : list (string * string)) (k : string) :
  NoDup (List.map fst p) -> p ≡ₚ p' -> lookup k p = lookup k p'.
Proof.
  intros Hnd Hp.
  assert (Hnd' : NoDup (List.map fst p')).
  { by rewrite <- Hp. }
  destruct (lookup k p) as [v|] eqn:E.
  - symmetry. apply lookup_In; [exact Hnd'|].
    eapply Permutation_in; [exact Hp|].
    clear -E. induction p as [|[k' v'] p IH]; [discriminate|].
    cbn [lookup] in E. destruct (String.eqb_spec k k') as [->|_].
    + injection E as ->. by left.
    + right. by apply IH.
  - destruct (lookup k p') as [v'|] eqn:E'; [|reflexivity].
    rewrite <- E. apply lookup_In; [exact Hnd|].
    eapply Permutation_in; [symmetry; exact Hp|].
    clear -E'. induction p' as [|[k' v''] p' IH]; [discriminate|].
    cbn [lookup] in E'. destruct (String.eqb_spec k k') as [->|_].
    + injection E' as ->. by left.
    + right. by apply IH.
Qed.

(** The order in which the object lists its properties does not matter. *)
Lemma built_order_irrelevant (p p' : list (string * string)) :
  NoDup (List.map fst p) -> p ≡ₚ p' ->
  JS.slice_0_m1 (append_pairs "" (JS.sort (List.map fst p)) p)
  = JS.slice_0_m1 (append_pairs "" (JS.sort (List.map fst p')) p').
Proof.
  intros Hnd Hp. rewrite !built_query_string.
  rewrite (sort_permutation_invariant _ (List.map fst p'))
    by (by apply Permutation_map).
  f_equal. apply List.map_ext. intros k. unfold pair_of.
  by rewrite (lookup_Permutation p p' k Hnd Hp).
Qed.


Lemma handleQuery_order_irrelevant (i : option string) (w : World)
      (p p' : list (string * string)) :
  NoDup (List.map fst p) -> p ≡ₚ p' ->
  snd (handleQuery {| id := i; params := Some p |} w)
  = snd (handleQuery {| id := i; params := Some p' |} w).
Proof.
  intros Hnd Hp. rewrite !handleQuery_eq. cbn [id params]. unfold with_params.
  rewrite (built_order_irrelevant p p' Hnd Hp).
  destruct (JS.truthy i); [destruct (url (this w))|]; reflexivity.
Qed.

(** Without [params] the query string of the factory stays. *)
Lemma handleQuery_absent_params (q : Query) (w : World) :
  params q = None ->
  queryParameters (this (snd (handleQuery q w))) = queryParameters (this w).
Proof.
  intros Hp. rewrite handleQuery_eq, Hp.
  destruct (JS.truthy (id q)); [destruct (url (this w))|]; reflexivity.
Qed.

(** An id without a dollar sign: the path of the specification. *)
Lemma handleQuery_path (q : Query) (w : World) (u : string) :
  url (this w) = Some u ->
  has_dollar (JS.elem (id q)) = false ->
  url (this (snd (handleQuery q w))) = Some (Spec.resolvePath u (id q)).
Proof.
  intros Hu Hd. rewrite handleQuery_eq, Hu.
  assert (Hurl : forall o s, url (with_params o s) = url s) by (by intros []).
  destruct (id q) as [i|]; cbn [JS.truthy JS.elem Spec.resolvePath] in *.
  - destruct (String.eqb i "") eqn:Ei; cbn [negb snd this]; rewrite Hurl;
      [by rewrite Hu|].
    cbn [url with_url]. unfold resolved_id.
    destruct (String.eqb i "*"); f_equal; by apply replace_verbatim.
  - cbn [snd this]. by rewrite Hurl.
Qed.

End HandleQuery.

(** ** The client *)

Section Client.

Context {crypto : Crypto}.
Variable env : Moment.Env.
Variable clock : nat -> Z.

Lemma with_params_constants (p : option (list (string * string)))
      (s : SignatureFactory.t) :
  same_constants s (with_params p s).
Proof. destruct p; repeat split. Qed.

Lemma handleQuery_constants (q : Query) (w : SignatureFactory.World) :
  same_constants (SignatureFactory.this w)
    (SignatureFactory.this (snd (SignatureFactory.handleQuery q w))).
Proof.
  rewrite handleQuery_eq.
  destruct (JS.truthy (id q)).
  - destruct (SignatureFactory.url (SignatureFactory.this w)); cbn [snd];
      [|repeat split].
    destruct (params q); repeat split.
  - destruct (params q); repeat split.
Qed.

Lemma sign_constants (w : SignatureFactory.World) :
  same_constants (SignatureFactory.this w)
    (SignatureFactory.this (snd (SignatureFactory.sign env clock w))).
Proof.
  rewrite sign_eq.
  destruct (SignatureFactory.getSignature _); repeat split.
Qed.

Lemma same_constants_trans (a b c : SignatureFactory.t) :
  same_constants a b -> same_constants b c -> same_constants a c.
Proof. unfold same_constants. intuition congruence. Qed.

Lemma get_constants (r : Resource.t) (q : option Query)
      (w : SignatureFactory.World) :
  same_constants (SignatureFactory.this w)
    (SignatureFactory.this (snd (Resource.get env clock r q w))).
Proof.
  unfold Resource.get. unfold bind at 1.
  unfold SignatureFactory.setUrl, SignatureFactory.assign.
  set (w0 := {| SignatureFactory.this := _; SignatureFactory.reads := _ |}).
  set (q0 := match q with Some _ => _ | None => _ end).
  assert (H0 : same_constants (SignatureFactory.this w) (SignatureFactory.this w0))
    by repeat split.
  unfold bind at 1.
  pose proof (handleQuery_constants q0 w0) as H1.
  destruct (SignatureFactory.handleQuery q0 w0) as [[q1|e] w1]; cbn [snd] in *;
    [|by eapply same_constants_trans].
  unfold bind.
  pose proof (sign_constants w1) as H2.
  destruct (SignatureFactory.sign env clock w1) as [[sg|e] w2]; cbn [snd] in *;
    eapply same_constants_trans; eauto using same_constants_trans.
Qed.

Lemma prefix_append (a b : string) : String.prefix a (a ++ b) = true.
Proof.
  induction a as [|c a IH]; [by destruct b|].
  rewrite append_cons. cbn [String.prefix].
  destruct (ascii_dec c c); [exact IH|contradiction].
Qed.

Lemma Ok_inj {A} (a b : A) : Ok a = Ok b -> a = b.
Proof. by intros [= ->]. Qed.

(** A path that starts with a slash still does after the substitution. *)
Lemma replace_keeps_slash (rest v : string) :
  exists rest', JS.replace (String "/" rest) ":id" v = String "/" rest'.
Proof.
  unfold JS.replace. cbn [JS.search String.prefix].
  destruct (ascii_dec ":" "/") as [H|_]; [discriminate H|].
  destruct (JS.search ":id" rest) as [[before after]|]; eexists; reflexivity.
Qed.

Lemma with_params_url (p : option (list (string * string)))
      (s : SignatureFactory.t) :
  SignatureFactory.url (with_params p s) = SignatureFactory.url s.
Proof. by destruct p. Qed.

(** Every request goes to the base URL of its resource, followed by a
    path. *)
Lemma get_request_url (r : Resource.t) (q : option Query)
      (w : SignatureFactory.World) (o : Resource.Options) (rest : string) :
  Resource.url r = String "/" rest ->
  fst (Resource.get env clock r q w) = Ok o ->
  exists u, Resource.options_url o = Resource.getBaseUrl r ++ String "/" u.
Proof.
  intros Hr. unfold Resource.get. unfold bind at 1.
  unfold SignatureFactory.setUrl, SignatureFactory.assign. rewrite Hr.
  set (w0 := {| SignatureFactory.this := _; SignatureFactory.reads := _ |}).
  set (q0 := match q with Some _ => _ | None => _ end).
  unfold bind at 1. rewrite handleQuery_eq.
  assert (Hw1 : forall w1,
             (exists rest', SignatureFactory.url (SignatureFactory.this w1)
                            = Some (String "/" rest')) ->
             fst (bind (SignatureFactory.sign env clock)
                    (fun signature =>
                       ret {| Resource.options_url :=
                                Resource.getBaseUrl r
                                  ++ JS.ToString (Response.url signature);
                              Resource.options_headers :=
                                Response.headers signature |}) w1)
             = Ok o ->
             exists u, Resource.options_url o
                       = Resource.getBaseUrl r ++ String "/" u).
  { intros w1 [rest' Hu]. unfold bind. rewrite sign_eq. cbv zeta.
    destruct (SignatureFactory.getSignature _); [|discriminate].
    cbn [fst ret Response.url Response.headers]. rewrite Hu.
    intros H%Ok_inj. rewrite <- H. cbn [Resource.options_url JS.ToString].
    destruct (JS.truthy _); cbn [JS.ToString]; eexists; reflexivity. }
  destruct (JS.truthy (id q0)).
  - cbn [SignatureFactory.this SignatureFactory.url SignatureFactory.with_url w0].
    cbv zeta. intros H. apply Hw1 in H; [exact H|].
    cbn [SignatureFactory.this]. rewrite with_params_url.
    cbn [SignatureFactory.url SignatureFactory.with_url].
    destruct (replace_keeps_slash rest (resolved_id (JS.elem (id q0)))) as [x ->].
    by eexists.
  - intros H. apply Hw1 in H; [exact H|].
    cbn [SignatureFactory.this]. rewrite with_params_url.
    cbn [w0 SignatureFactory.this SignatureFactory.url SignatureFactory.with_url].
    by eexists.
Qed.

Lemma constructor_as_constructed (accessKey secretKey : string) :
  as_constructed (Usabilla.constructor accessKey secretKey).
Proof. repeat split. Qed.

Lemma step_as_constructed (c : Usabilla.call) (s : Usabilla.State) :
  as_constructed s -> as_constructed (snd (Usabilla.step env clock c s)).
Proof.
  intros (Hh & Hm & Hw). destruct c as [options|p q]; cbn [Usabilla.step].
  - repeat split; assumption.
  - pose proof (get_constants (Usabilla.resource (Usabilla.client s) p) q
                  (Usabilla.world s)) as (_ & _ & Hh' & Hm').
    destruct (Resource.get _ _ _ _ _) as [r w]. cbn [snd] in *.
    unfold as_constructed. cbn [Usabilla.world Usabilla.client].
    rewrite Hh', Hm'. by repeat split.
Qed.

Lemma run_cons (c : Usabilla.call) (cs : list Usabilla.call) (s : Usabilla.State) :
  Usabilla.run env clock (c :: cs) s
  = (match fst (Usabilla.step env clock c s) with
     | Some r => r :: fst (Usabilla.run env clock cs (snd (Usabilla.step env clock c s)))
     | None => fst (Usabilla.run env clock cs (snd (Usabilla.step env clock c s)))
     end,
     snd (Usabilla.run env clock cs (snd (Usabilla.step env clock c s)))).
Proof.
  cbn [Usabilla.run]. destruct (Usabilla.step env clock c s) as [o s'].
  cbn [fst snd]. by destruct (Usabilla.run env clock cs s').
Qed.

Lemma run_as_constructed (cs : list Usabilla.call) (s : Usabilla.State) :
  as_constructed s -> as_constructed (snd (Usabilla.run env clock cs s)).
Proof.
  revert s. induction cs as [|c cs IH]; intros s Hs; [exact Hs|].
  rewrite run_cons. cbn [snd]. by apply IH, step_as_constructed.
Qed.

Lemma getBaseUrl_as_constructed (s : Usabilla.State) (p : Usabilla.path) :
  as_constructed s ->
  Resource.getBaseUrl (Usabilla.resource (Usabilla.client s) p)
  = "https://data.usabilla.com".
Proof. intros (_ & _ & Hw). unfold Usabilla.resource. rewrite Hw. by destruct p. Qed.

Lemma resource_url_as_constructed (s : Usabilla.State) (p : Usabilla.path) :
  as_constructed s ->
  exists rest, Resource.url (Usabilla.resource (Usabilla.client s) p) = String "/" rest.
Proof.
  intros (_ & _ & Hw). unfold Usabilla.resource. rewrite Hw.
  destruct p; eexists; reflexivity.
Qed.

Lemma run_request_url (cs : list Usabilla.call) (s : Usabilla.State)
      (o : Resource.Options) :
  as_constructed s ->
  In (Ok o) (fst (Usabilla.run env clock cs s)) ->
  to_usabilla (Ok o).
Proof.
  revert s. induction cs as [|c cs IH]; intros s Hs; [intros []|].
  rewrite run_cons. cbn [fst].
  pose proof (step_as_constructed c s Hs) as Hs'.
  destruct c as [options|p q]; cbn [Usabilla.step] in *; [by apply IH|].
  destruct (resource_url_as_constructed s p Hs) as [rest Hrest].
  pose proof (get_request_url (Usabilla.resource (Usabilla.client s) p) q
                (Usabilla.world s) o rest Hrest) as Hget.
  destruct (Resource.get _ _ _ _ _) as [r w]. cbn [fst snd] in *.
  intros [->|Hin]; [|by eapply IH].
  destruct (Hget eq_refl) as [u Hu]. cbn [to_usabilla].
  rewrite Hu, (getBaseUrl_as_constructed s p Hs).
  apply (prefix_append "https://data.usabilla.com/" u).
Qed.

(** The [configure] calls of a sequence change neither a request nor the
    factory. *)
Lemma run_without_configure (cs : list Usabilla.call) (s s' : Usabilla.State) :
  Usabilla.websites (Usabilla.client s) = Usabilla.websites (Usabilla.client s') ->
  Usabilla.world s = Usabilla.world s' ->
  fst (Usabilla.run env clock cs s)
  = fst (Usabilla.run env clock (without_configure cs) s')
  /\ Usabilla.world (snd (Usabilla.run env clock cs s))
     = Usabilla.world (snd (Usabilla.run env clock (without_configure cs) s')).
Proof.
  revert s s'. induction cs as [|c cs IH]; intros s s' Hw Hworld.
  - by split.
  - destruct c as [options|p q]; cbn [without_configure]; rewrite !run_cons.
    + cbn [Usabilla.step fst snd]. by apply IH.
    + cbn [Usabilla.step]. unfold Usabilla.resource. rewrite Hw, Hworld.
      destruct (Resource.get _ _ _ _ _) as [r w]. cbn [fst snd].
      destruct (IH {| Usabilla.client := Usabilla.client s; Usabilla.world := w |}
                   {| Usabilla.client := Usabilla.client s'; Usabilla.world := w |}
                   Hw eq_refl) as [-> ->].
      by split.
Qed.

End Client.

(** ** Formatting an instant *)

Section Formatting.

Import Moment.

Lemma length_append (a b : string) :
  String.length (a ++ b) = (String.length a + String.length b)%nat.
Proof. induction a as [|c a IH]; [reflexivity|]. rewrite append_cons. cbn. by rewrite IH. Qed.

(** Equal texts split alike before suffixes of one length. *)
Lemma append_eq_suffix (a a' b b' : string) :
  String.length b = String.length b' -> a ++ b = a' ++ b' -> a = a' /\ b = b'.
Proof.
  intros Hb. revert a'. induction a as [|c a IH]; intros [|c' a'] H.
  - by split.
  - apply (f_equal String.length) in H.
    rewrite append_nil_l, append_cons in H.
    cbn [String.length] in H. rewrite length_append in H. lia.
  - apply (f_equal String.length) in H.
    rewrite append_nil_l, append_cons in H.
    cbn [String.length] in H. rewrite length_append in H. lia.
  - rewrite !append_cons in H. injection H as -> H.
    destruct (IH a' H) as [-> ->]. by split.
Qed.

Lemma seconds_range (env : Env) (t : Z) : 0 <= seconds (fields env t) < 60.
Proof.
  unfold fields. destruct (civil _) as [[y m] d]. cbn [seconds].
  apply Z.mod_pos_bound. lia.
Qed.

Lemma zeroFill_2_length (n : Z) :
  0 <= n < 100 -> String.length (zeroFill n 2) = 2%nat.
Proof.
  intros Hn. replace n with (Z.of_nat (Z.to_nat n)) by lia.
  assert (Hlt : (Z.to_nat n < 100)%nat) by lia.
  generalize dependent (Z.to_nat n). clear. intros k Hk.
  do 100 (destruct k as [|k]; [reflexivity|]). lia.
Qed.

Lemma format_longdate (env : Env) (t : Z) :
  let f := fields env t in
  format env t "YYYYMMDDTHHmmss"
  = (zeroFill (year f) 4 ++ zeroFill (month f) 2 ++ zeroFill (date f) 2 ++ "T"
       ++ zeroFill (hours f) 2 ++ zeroFill (minutes f) 2)
      ++ zeroFill (seconds f) 2.
Proof.
  intros f. unfold format. fold f.
  change (tokens 0 "YYYYMMDDTHHmmss") with [YYYY; MM; DD; Lit "T"; HH; mm; ss].
  cbn [List.map render String.concat]. rewrite !append_nil_l.
  by rewrite !append_assoc.
Qed.

Lemma format_usbldate (env : Env) (t : Z) :
  let f := fields env t in
  format env t "ddd, DD MMM YYYY HH:mm:ss"
  = (weekdaysShort (locale env) (day f) ++ ", " ++ zeroFill (date f) 2 ++ " "
       ++ monthsShort (locale env) (month f) ++ " " ++ zeroFill (year f) 4 ++ " "
       ++ zeroFill (hours f) 2 ++ ":" ++ zeroFill (minutes f) 2 ++ ":")
      ++ zeroFill (seconds f) 2.
Proof.
  intros f. unfold format. fold f.
  change (tokens 0 "ddd, DD MMM YYYY HH:mm:ss")
    with [ddd; Lit ","; Lit " "; DD; Lit " "; MMM; Lit " "; YYYY; Lit " ";
          HH; Lit ":"; mm; Lit ":"; ss].
  cbn [List.map render String.concat]. rewrite !append_nil_l.
  by rewrite !append_assoc.
Qed.

(** When the clock does not move during the call, the dates are those of
    one instant. *)
Lemma getDateTime_snapshot (env : Env) (clock : nat -> Z) (t : Z)
      (w : SignatureFactory.World) :
  clock (SignatureFactory.reads w) = t ->
  clock (S (SignatureFactory.reads w)) = t ->
  clock (S (S (SignatureFactory.reads w))) = t ->
  fst (SignatureFactory.getDateTime env clock w) = Ok (Spec.snapshot env t).
Proof.
  intros H1 H2 H3. rewrite getDateTime_eq. cbn [fst]. unfold dates_read.
  by rewrite H1, H2, H3.
Qed.

(** The header date and the long date of one instant show the same
    second. *)
Lemma snapshot_same_second (env : Env) (t : Z) (u l a b : string) :
  usbldate (Spec.snapshot env t) = u ++ a ++ " GMT" ->
  longdate (Spec.snapshot env t) = l ++ b ++ "Z" ->
  String.length a = 2%nat -> String.length b = 2%nat ->
  a = b.
Proof.
  cbn [Spec.snapshot usbldate longdate]. rewrite format_usbldate, format_longdate.
  intros Hu Hl Ha Hb.
  pose proof (zeroFill_2_length (seconds (fields env t))) as Hs.
  pose proof (seconds_range env t) as Hr.
  rewrite append_assoc in Hu, Hl.
  apply append_eq_suffix in Hu as [_ Hu];
    [|rewrite !length_append; rewrite Hs by lia; by rewrite Ha].
  apply append_eq_suffix in Hl as [_ Hl];
    [|rewrite !length_append; rewrite Hs by lia; by rewrite Hb].
  apply append_eq_suffix in Hu as [Hu _]; [|reflexivity].
  apply append_eq_suffix in Hl as [Hl _]; [|reflexivity].
  congruence.
Qed.

End Formatting.

(** ** The examples of the specification *)

Example query_ordering (w : SignatureFactory.World) :
  SignatureFactory.queryParameters
    (SignatureFactory.this
       (snd (SignatureFactory.handleQuery
               {| id := None; params := Some [("b", "2"); ("a", "1")] |} w)))
  = Some "a=1&b=2".
Proof. by rewrite handleQuery_eq. Qed.

Example empty_params (w : SignatureFactory.World) :
  SignatureFactory.queryParameters
    (SignatureFactory.this
       (snd (SignatureFactory.handleQuery {| id := None; params := Some [] |} w)))
  = Some "".
Proof. by rewrite handleQuery_eq. Qed.

Example wildcard_substitution :
  Spec.resolvePath "/x/:id/y" (Some "*") = "/x/%2A/y"
  /\ JS.replace "/x/:id/y" ":id" (resolved_id "*") = "/x/%2A/y".
Proof. by split. Qed.

Example empty_id_is_a_no_op :
  Spec.resolvePath "/x/:id/y" (Some "") = "/x/:id/y"
  /\ Spec.resolvePath "/x/:id/y" None = "/x/:id/y".
Proof. by split. Qed.

Example derivation_chain :
  Hex.encode (Sha256.hmac (Sha256.hmac (list_byte_of_string "USBL1k")
                             (list_byte_of_string "20170102"))
                (list_byte_of_string "usbl1_request"))
  = "923105c675bc8cb49b0e63aa4ab2dca26bd5da6766f139125f0b083e516be697".
Proof. vm_compute. reflexivity. Qed.

Example end_to_end :
  fst (Usabilla.run (crypto := node_crypto) Moment.utc (frozen example_instant)
         [Usabilla.Get Usabilla.buttons_feedback
            (Some {| id := Some "42"; params := Some [("limit", "5")] |})]
         (Usabilla.constructor "AK" "SK"))
  = [ Ok {| Resource.options_url :=
              "https://data.usabilla.com/live/websites/button/42/feedback?limit=5";
            Resource.options_headers :=
              Some {| date := Some "Mon, 02 Jan 2017 15:04:05 GMT";
                      Authorization :=
                        Some "USBL1-HMAC-SHA256 Credential=AK/20170102/usbl1_request, SignedHeaders=date;host, Signature=fc10acc1cf374dec36b73d99559e538f77d2ff92f853bc784606a28265686692" |} |} ].
Proof. vm_compute. reflexivity. Qed.

(** * The claims of the specification *)

Section Claims.

Import SignatureFactory.

(** ** Timestamps *)

(** C1. [getDateTime] reads the clock once for each of the three forms.
    When the day changes between the first reading and the next, the header
    date is of one day and the short and long dates are of the day after;
    no single instant, in any time zone or locale, has these three
    forms. *)
Theorem getDateTime_reads_the_clock_three_times :
  let clock := ticking 1483401599999 1483401600000 in
  let w := {| this := constructor "AK" "SK" "data.usabilla.com"; reads := 0 |} in
  let ds := {| usbldate := "Mon, 02 Jan 2017 23:59:59 GMT";
               shortdate := "20170103";
               longdate := "20170103T000000Z" |} in
  getDateTime Moment.utc clock w = (Ok ds, {| this := this w; reads := 3 |})
  /\ forall (env : Moment.Env) (t : Z), Spec.snapshot env t <> ds.
Proof.
  intros clock w ds. split; [vm_compute; reflexivity|].
  intros env t H.
  pose proof (snapshot_same_second env t
                "Mon, 02 Jan 2017 23:59:" "20170103T0000" "59" "00") as Hs.
  rewrite H in Hs. discriminate Hs; reflexivity.
Qed.

(** ** Independence of earlier calls *)

(** C2. The query string of an earlier request stays in the factory. After
    a request with [limit=5], a request for the buttons without parameters
    is sent with [limit=5] in its URL and signed with [limit=5] in its
    canonical string; on a new client the same request has no query string.
    Both runs have the same credentials and the same instant. *)
Theorem earlier_query_string_is_reused :
  let t := 1483369445000 in
  let first := Usabilla.Get Usabilla.buttons_feedback
                 (Some {| id := Some "42"; params := Some [("limit", "5")] |}) in
  let second := Usabilla.Get Usabilla.buttons None in
  let run := Usabilla.run (crypto := node_crypto) Moment.utc (frozen t) in
  let s := Usabilla.constructor "AK" "SK" in
  List.map url_of (fst (run [first; second] s))
  = [ Some "https://data.usabilla.com/live/websites/button/42/feedback?limit=5";
      Some "https://data.usabilla.com/live/websites/button?limit=5" ]
  /\ List.map url_of (fst (run [second] s))
     = [ Some "https://data.usabilla.com/live/websites/button" ]
  /\ queryParameters (this (Usabilla.world (snd (run [first; second] s))))
     = Some "limit=5"
  /\ queryParameters (this (Usabilla.world (snd (run [second] s)))) = None
  /\ canonicalString (crypto := node_crypto)
       (this (Usabilla.world (snd (run [first; second] s))))
     = Ok "GET
/live/websites/button
limit=5
date:Mon, 02 Jan 2017 15:04:05 GMT
host:data.usabilla.com

date;host
e3b0c44298fc1c149afbf4c8996fb92427ae41e4649b934ca495991b7852b855"
  /\ nth 1 (fst (run [first; second] s)) (Throw TypeError)
     <> nth 0 (fst (run [second] s)) (Throw TypeError).
Proof. vm_compute. repeat split; discriminate. Qed.

(** ** The time zone of the process *)

(** C5. The three forms are those of the local time of the process, with
    [GMT] and [Z] appended. For one instant, 2017-01-02T23:30:00Z, the same
    request of the same client is signed for the 2nd of January in a process
    in UTC and for the 3rd in a process one hour east of it. *)
Theorem signature_follows_the_time_zone :
  let t := 1483399800000 in
  let call := Usabilla.Get Usabilla.buttons_feedback
                (Some {| id := Some "42"; params := Some [("limit", "5")] |}) in
  let run env := Usabilla.run (crypto := node_crypto) env (frozen t)
                   [call] (Usabilla.constructor "AK" "SK") in
  fst (run Moment.utc)
  = [ Ok {| Resource.options_url :=
              "https://data.usabilla.com/live/websites/button/42/feedback?limit=5";
            Resource.options_headers :=
              Some {| date := Some "Mon, 02 Jan 2017 23:30:00 GMT";
                      Authorization :=
                        Some "USBL1-HMAC-SHA256 Credential=AK/20170102/usbl1_request, SignedHeaders=date;host, Signature=e76917dca3e80117011b36a7aa4d1f2e8d0f34144ddee47c2336618e4b202230" |} |} ]
  /\ fst (run (Moment.fixed_offset 60))
     = [ Ok {| Resource.options_url :=
                 "https://data.usabilla.com/live/websites/button/42/feedback?limit=5";
               Resource.options_headers :=
                 Some {| date := Some "Tue, 03 Jan 2017 00:30:00 GMT";
                         Authorization :=
                           Some "USBL1-HMAC-SHA256 Credential=AK/20170103/usbl1_request, SignedHeaders=date;host, Signature=2eaa72e8777383fff3e943959bcfc1f33d5b3c5896b65725b123b9a8acae540a" |} |} ]
  /\ dates (this (Usabilla.world (snd (run (Moment.fixed_offset 60)))))
     = Some {| usbldate := "Tue, 03 Jan 2017 00:30:00 GMT";
               shortdate := "20170103";
               longdate := "20170103T003000Z" |}.
Proof. vm_compute. repeat split. Qed.

(** ** Query string and path *)

(** C6. A query without [params] builds no query string and does not clear
    the one in the factory: after a call with [limit=5], the call without
    [params] leaves [limit=5] in [queryParameters], and [sign] appends it
    to the URL. The query string of the specification for no parameters is
    empty, and the URL it gives has no question mark. *)
Theorem absent_params_keep_the_query_string :
  let w0 := {| this := constructor "AK" "SK" "data.usabilla.com"; reads := 0 |} in
  let sign := sign (crypto := node_crypto) Moment.utc (frozen 1483369445000) in
  let calls :=
    (setUrl "/live/websites/button/:id/feedback" ;;
     _ <- handleQuery {| id := Some "42"; params := Some [("limit", "5")] |} ;;
     _ <- sign ;;
     setUrl "/live/websites/button" ;;
     _ <- handleQuery {| id := None; params := None |} ;;
     sign)%M in
  queryParameters (this (snd (calls w0))) = Some "limit=5"
  /\ (exists r, fst (calls w0) = Ok r
                /\ Response.url r = Some "/live/websites/button?limit=5")
  /\ Spec.buildQueryString [] = ""
  /\ Spec.signed_url "/live/websites/button" (Some (Spec.buildQueryString []))
     = "/live/websites/button".
Proof.
  vm_compute. repeat split. eexists. split; reflexivity.
Qed.

(** C7. The id is the replacement text of [String.prototype.replace], in
    which a dollar sign is special: the id [$$] is put into the path as a
    single [$], and the id [$&] as the placeholder itself, also in the URL
    that a resource of the client requests. The specification substitutes
    both as they are. *)
Theorem id_with_dollar_is_not_verbatim :
  let w := {| this := with_url (Some "/x/:id/y")
                        (constructor "AK" "SK" "data.usabilla.com");
              reads := 0 |} in
  let resolved i :=
    url (this (snd (handleQuery {| id := Some i; params := None |} w))) in
  resolved "$$" = Some "/x/$/y"
  /\ Spec.resolvePath "/x/:id/y" (Some "$$") = "/x/$$/y"
  /\ resolved "$&" = Some "/x/:id/y"
  /\ Spec.resolvePath "/x/:id/y" (Some "$&") = "/x/$&/y"
  /\ List.map url_of
       (fst (Usabilla.run (crypto := node_crypto) Moment.utc (frozen example_instant)
               [Usabilla.Get Usabilla.buttons_feedback
                  (Some {| id := Some "$$"; params := None |})]
               (Usabilla.constructor "AK" "SK")))
     = [ Some "https://data.usabilla.com/live/websites/button/$/feedback" ].
Proof. vm_compute. repeat split. Qed.

(** ** The signature *)

(** C4. With the dates of the call in place, the canonical string is the
    join by newlines of the method ([GET] when none is set), the path, the
    query string, the date line, the host line that ends in a newline of
    its own, [date;host] and the hex SHA-256 of the empty string; an unset
    path or query string is an empty segment. When the hash cannot be
    computed the call throws. *)
Theorem canonicalString_layout {crypto : Crypto} (s : t) (d : Dates) :
  dates s = Some d ->
  canonicalString s
  = of_option (Spec.canonicalString (method s) (JS.elem (url s))
                 (JS.elem (queryParameters s)) (usbldate d) (host s)).
Proof. apply canonicalString_eq. Qed.

(** C3. The signature is the chain of the specification: the key of the
    date from ["USBL1" + secretKey] and the short date, the signing key
    from it and [usbl1_request], and the hex HMAC under the signing key of
    the string to sign, which joins the algorithm, the long date, the scope
    and the hex SHA-256 of the canonical string. When a primitive fails,
    both sides fail. *)
Theorem getSignature_reference {crypto : Crypto} (s : t) (d : Dates) (c : string) :
  dates s = Some d ->
  canonicalString s = Ok c ->
  getSignature s
  = of_option (Spec.signature (secretKey s) (shortdate d) (longdate d) c).
Proof. apply getSignature_eq. Qed.

(** C8. When the signature is computed, [sign] returns the date header of
    the call, the [Authorization] header in the format of the protocol, and
    the path, followed by a question mark and the query string exactly when
    the factory holds a query string that is not empty. *)
Theorem sign_returns_headers_and_url {crypto : Crypto} (env : Moment.Env)
        (clock : nat -> Z) (w : World) (path sig : string) :
  url (this w) = Some path ->
  getSignature (with_dates (Some (dates_read env clock (reads w))) (this w))
  = Ok sig ->
  fst (sign env clock w)
  = Ok {| Response.headers :=
            Some {| date := Some (usbldate (dates_read env clock (reads w)));
                    Authorization :=
                      Some (Spec.authorization (accessKey (this w))
                              (shortdate (dates_read env clock (reads w))) sig) |};
          Response.url := Some (Spec.signed_url path (queryParameters (this w))) |}.
Proof.
  intros Hu Hs. rewrite sign_eq. cbv zeta. rewrite Hs, Hu. cbn [fst].
  do 2 f_equal. unfold Spec.signed_url, JS.truthy.
  destruct (queryParameters (this w)) as [q|]; [|reflexivity].
  by destruct (String.eqb q "").
Qed.

Lemma canonicalString_layout_witness :
  dates example_factory = Some example_dates
  /\ canonicalString (crypto := node_crypto) example_factory
     = of_option (Spec.canonicalString (crypto := node_crypto)
                    (method example_factory) (JS.elem (url example_factory))
                    (JS.elem (queryParameters example_factory))
                    (usbldate example_dates) (host example_factory)).
Proof.
  split; [reflexivity|].
  apply (canonicalString_layout (crypto := node_crypto) example_factory example_dates).
  reflexivity.
Defined.

Example canonicalString_fixture :
  canonicalString (crypto := node_crypto) example_factory = Ok example_canonical.
Proof. vm_compute. reflexivity. Qed.

Lemma getSignature_reference_witness :
  dates example_factory = Some example_dates
  /\ canonicalString (crypto := node_crypto) example_factory = Ok example_canonical
  /\ getSignature (crypto := node_crypto) example_factory
     = of_option (Spec.signature (crypto := node_crypto)
                    (secretKey example_factory) (shortdate example_dates)
                    (longdate example_dates) example_canonical).
Proof.
  split; [reflexivity|]. split; [vm_compute; reflexivity|].
  apply (getSignature_reference (crypto := node_crypto)
           example_factory example_dates example_canonical);
    [reflexivity | vm_compute; reflexivity].
Defined.

Example getSignature_fixture :
  getSignature (crypto := node_crypto) example_factory = Ok example_signature.
Proof. vm_compute. reflexivity. Qed.

Lemma sign_returns_headers_and_url_witness :
  url (this example_world) = Some example_path
  /\ getSignature (crypto := node_crypto)
       (with_dates (Some (dates_read Moment.utc (frozen example_instant)
                            (reads example_world)))
          (this example_world))
     = Ok example_signature
  /\ fst (sign (crypto := node_crypto) Moment.utc (frozen example_instant) example_world)
     = Ok {| Response.headers :=
               Some {| date :=
                         Some (usbldate (dates_read Moment.utc (frozen example_instant)
                                           (reads example_world)));
                       Authorization :=
                         Some (Spec.authorization (accessKey (this example_world))
                                 (shortdate (dates_read Moment.utc
                                               (frozen example_instant)
                                               (reads example_world)))
                                 example_signature) |};
             Response.url :=
               Some (Spec.signed_url example_path
                       (queryParameters (this example_world))) |}.
Proof.
  split; [reflexivity|]. split; [vm_compute; reflexivity|].
  apply (sign_returns_headers_and_url (crypto := node_crypto) Moment.utc
           (frozen example_instant) example_world example_path example_signature);
    [reflexivity | vm_compute; reflexivity].
Defined.

Example sign_fixture :
  fst (sign (crypto := node_crypto) Moment.utc (frozen example_instant) example_world)
  = Ok {| Response.headers :=
            Some {| date := Some "Mon, 02 Jan 2017 15:04:05 GMT";
                    Authorization :=
                      Some "USBL1-HMAC-SHA256 Credential=AK/20170102/usbl1_request, SignedHeaders=date;host, Signature=fc10acc1cf374dec36b73d99559e538f77d2ff92f853bc784606a28265686692" |};
          Response.url := Some "/live/websites/button/42/feedback?limit=5" |}.
Proof. vm_compute. reflexivity. Qed.

(** ** Failure of a primitive *)

(** C9, as the specification states it, fails: in a build without SHA-256
    [sign] throws and returns nothing, and the factory is not as it was
    before the call. *)
Lemma sign_failure_changes_the_factory :
  exists (e : exn) (w' : World),
    sign (crypto := no_digest_crypto) Moment.utc (frozen example_instant)
      example_world = (Throw e, w')
    /\ this w' <> this example_world.
Proof.
  eexists _, _. split; [vm_compute; reflexivity|].
  cbn [this]. discriminate.
Qed.

(** C9, amended. When a primitive fails, so that the request has no
    signature, [sign] throws the failure and returns nothing; the factory
    then holds the dates of the call and headers with the date but without
    [Authorization], and its other fields are as before the call. *)
Theorem sign_failure {crypto : Crypto} (env : Moment.Env) (clock : nat -> Z)
        (w : World) :
  Spec.request_signature (secretKey (this w)) (method (this w))
    (JS.elem (url (this w))) (JS.elem (queryParameters (this w)))
    (host (this w)) (dates_read env clock (reads w)) = None ->
  sign env clock w
  = (Throw CryptoError,
     {| this := half_signed (dates_read env clock (reads w)) (this w);
        reads := S (S (S (reads w))) |})
  /\ same_constants (this w) (half_signed (dates_read env clock (reads w)) (this w))
  /\ url (half_signed (dates_read env clock (reads w)) (this w)) = url (this w)
  /\ queryParameters (half_signed (dates_read env clock (reads w)) (this w))
     = queryParameters (this w).
Proof.
  intros Hnone. split; [|by repeat split].
  rewrite sign_eq. cbv zeta.
  rewrite (getSignature_request (with_dates (Some (dates_read env clock (reads w)))
                                   (this w)) (dates_read env clock (reads w)) eq_refl).
  cbn [secretKey method url queryParameters host with_dates].
  by rewrite Hnone.
Qed.

Lemma sign_failure_witness :
  Spec.request_signature (crypto := no_digest_crypto)
    (secretKey (this example_world)) (method (this example_world))
    (JS.elem (url (this example_world)))
    (JS.elem (queryParameters (this example_world)))
    (host (this example_world))
    (dates_read Moment.utc (frozen example_instant) (reads example_world)) = None
  /\ sign (crypto := no_digest_crypto) Moment.utc (frozen example_instant) example_world
     = (Throw CryptoError,
        {| this := half_signed (dates_read Moment.utc (frozen example_instant)
                                  (reads example_world)) (this example_world);
           reads := S (S (S (reads example_world))) |}).
Proof.
  split; [reflexivity|].
  apply (sign_failure (crypto := no_digest_crypto) Moment.utc
           (frozen example_instant) example_world).
  reflexivity.
Defined.

(** ** configure *)

(** C10. Whatever calls of [configure] and [get] a client receives after
    its construction: the requests issued and the factory are those of the
    same calls without the [configure] ones; the host of the factory is
    [data.usabilla.com] and its method is unset, so that the canonical
    string of the last signed request has the method [GET] and that host;
    every resource has the base URL [https://data.usabilla.com], and every
    request issued goes there. *)
Theorem configure_changes_no_request {crypto : Crypto} (env : Moment.Env)
        (clock : nat -> Z) (accessKey secretKey : string)
        (cs : list Usabilla.call) :
  let s0 := Usabilla.constructor accessKey secretKey in
  let s := snd (Usabilla.run env clock cs s0) in
  let f := this (Usabilla.world s) in
  fst (Usabilla.run env clock cs s0)
  = fst (Usabilla.run env clock (without_configure cs) s0)
  /\ Usabilla.world s
     = Usabilla.world (snd (Usabilla.run env clock (without_configure cs) s0))
  /\ host f = "data.usabilla.com"
  /\ method f = None
  /\ match dates f with
     | Some d =>
         canonicalString f
         = of_option (Spec.canonicalString None (JS.elem (url f))
                        (JS.elem (queryParameters f)) (usbldate d)
                        "data.usabilla.com")
     | None => True
     end
  /\ (forall p : Usabilla.path,
        Resource.getBaseUrl (Usabilla.resource (Usabilla.client s) p)
        = "https://data.usabilla.com")
  /\ Forall to_usabilla (fst (Usabilla.run env clock cs s0)).
Proof.
  intros s0 s f.
  pose proof (constructor_as_constructed accessKey secretKey) as H0. fold s0 in H0.
  pose proof (run_as_constructed env clock cs s0 H0) as Hs. fold s in Hs.
  destruct (run_without_configure env clock cs s0 s0 eq_refl eq_refl) as [Hr Hw].
  pose proof Hs as (Hh & Hm & Hweb). fold f in Hh, Hm.
  split; [exact Hr|]. split; [exact Hw|]. split; [exact Hh|]. split; [exact Hm|].
  split; [|split].
  - destruct (dates f) as [d|] eqn:Hd; [|exact I].
    rewrite (canonicalString_eq f d Hd). by rewrite Hh, Hm.
  - intros p. by apply getBaseUrl_as_constructed.
  - apply List.Forall_forall. intros [o|e] Hin; [|exact I].
    exact (run_request_url env clock cs s0 o H0 Hin).
Qed.

End Claims.

(** * Further properties of the code *)

Section Further.

Import SignatureFactory.

(** ** What sign reads and what it assigns *)

Lemma same_request_signed (s1 s2 : t) (d : option Dates) (h : option Headers) :
  same_request s1 s2 ->
  with_headers h (with_dates d s1) = with_headers h (with_dates d s2).
Proof.
  destruct s1, s2. unfold same_request. cbn.
  intros (-> & -> & -> & -> & -> & ->). reflexivity.
Qed.

Lemma same_request_getSignature {crypto : Crypto} (s1 s2 : t) (d : option Dates) :
  same_request s1 s2 ->
  getSignature (with_dates d s1) = getSignature (with_dates d s2).
Proof.
  intros H.
  rewrite <- (getSignature_with_headers None (with_dates d s1)).
  rewrite <- (getSignature_with_headers None (with_dates d s2)).
  by rewrite (same_request_signed s1 s2 d None H).
Qed.

Lemma same_request_sign {crypto : Crypto} (env : Moment.Env) (clock : nat -> Z)
      (s1 s2 : t) (n : nat) :
  same_request s1 s2 ->
  sign env clock {| this := s1; reads := n |}
  = sign env clock {| this := s2; reads := n |}.
Proof.
  intros H. rewrite !sign_eq. cbv zeta. cbn [this reads].
  rewrite (same_request_getSignature s1 s2 _ H).
  unfold signed, half_signed.
  destruct (getSignature _) as [sig|e];
    rewrite !(same_request_signed s1 s2 _ _ H); [|reflexivity].
  destruct H as (Ha & _ & _ & Hu & _ & Hq). by rewrite Ha, Hu, Hq.
Qed.

(** X1. [sign] reads neither the dates nor the headers that an earlier call
    left in the factory: two factories that hold the same request (keys,
    host, method, url, query string) give, at the same readings of the clock,
    the same result and are left in the same state. *)
Theorem sign_forgets_dates_and_headers {crypto : Crypto} (env : Moment.Env)
        (clock : nat -> Z) (s1 s2 : t) (n : nat) :
  same_request s1 s2 ->
  sign env clock {| this := s1; reads := n |}
  = sign env clock {| this := s2; reads := n |}.
Proof. apply same_request_sign. Qed.

Lemma sign_forgets_dates_and_headers_witness :
  same_request example_factory (with_dates None example_factory)
  /\ sign (crypto := node_crypto) Moment.utc (frozen example_instant)
       {| this := example_factory; reads := 0 |}
     = sign (crypto := node_crypto) Moment.utc (frozen example_instant)
         {| this := with_dates None example_factory; reads := 0 |}.
Proof.
  split; [by repeat split|].
  apply (sign_forgets_dates_and_headers (crypto := node_crypto) Moment.utc
           (frozen example_instant) example_factory
           (with_dates None example_factory) 0).
  by repeat split.
Defined.

(** X2. [sign] assigns [dates] and [headers] and nothing else: the keys, the
    host, the method, the url and the query string of the factory are as
    before the call, so the question mark and the query string go into the
    returned url only. It reads the clock three times, also when it throws;
    the headers it returns are the ones it leaves in the factory. *)
Theorem sign_assigns_dates_and_headers {crypto : Crypto} (env : Moment.Env)
        (clock : nat -> Z) (w : World) :
  same_request (this w) (this (snd (sign env clock w)))
  /\ reads (snd (sign env clock w)) = S (S (S (reads w)))
  /\ dates (this (snd (sign env clock w))) = Some (dates_read env clock (reads w))
  /\ match fst (sign env clock w) with
     | Ok r => Response.headers r = headers (this (snd (sign env clock w)))
     | Throw _ =>
         headers (this (snd (sign env clock w)))
         = Some {| date := Some (usbldate (dates_read env clock (reads w)));
                   Authorization := None |}
     end.
Proof.
  rewrite sign_eq. cbv zeta.
  destruct (getSignature _) as [sig|e]; cbn [fst snd this reads];
    by repeat split.
Qed.


(** ** get *)

Lemma get_closed {crypto : Crypto} (env : Moment.Env) (clock : nat -> Z)
      (r : Resource.t) (q : Query) (w : World) :
  Resource.get env clock r (Some q) w
  = match sign env clock
            {| this := with_params (params q)
                         (with_url (Some (replaced_url (Resource.url r) (id q)))
                            (this w));
               reads := reads w |} with
    | (Ok sg, w2) =>
        (Ok {| Resource.options_url :=
                 Resource.getBaseUrl r ++ JS.ToString (Response.url sg);
               Resource.options_headers := Response.headers sg |}, w2)
    | (Throw e, w2) => (Throw e, w2)
    end.
Proof.
  unfold Resource.get. unfold bind at 1. unfold setUrl, assign.
  unfold bind at 1. rewrite handleQuery_eq. cbn [this reads url with_url].
  unfold replaced_url, bind, ret.
  destruct (JS.truthy (id q)); reflexivity.
Qed.















(** ** handleQuery *)


(** X8. [handleQuery] assigns the url and the query string and nothing
    else: the keys, the host, the method, the dates and the headers of the
    factory are as before, and the clock is not read. *)
Theorem handleQuery_assigns_url_and_query_string (q : Query) (w : World) :
  same_constants (this w) (this (snd (handleQuery q w)))
  /\ dates (this (snd (handleQuery q w))) = dates (this w)
  /\ headers (this (snd (handleQuery q w))) = headers (this w)
  /\ reads (snd (handleQuery q w)) = reads w.
Proof.
  rewrite handleQuery_eq.
  destruct (JS.truthy (id q)); [destruct (url (this w))|]; cbn [snd this reads];
    destruct (params q); by repeat split.
Qed.

(** X9. An empty [params] object, unlike an absent one, clears the query
    string: whatever query string the factory held, the request that [get]
    issues is for the base URL and the path alone. *)
Theorem get_with_empty_params {crypto : Crypto} (env : Moment.Env)
        (clock : nat -> Z) (r : Resource.t) (i : option string) (w : World) :
  queryParameters
    (this (snd (Resource.get env clock r (Some {| id := i; params := Some [] |}) w)))
  = Some ""
  /\ match fst (Resource.get env clock r (Some {| id := i; params := Some [] |}) w) with
     | Ok o =>
         Resource.options_url o
         = Resource.getBaseUrl r ++ replaced_url (Resource.url r) i
     | Throw _ => True
     end.
Proof.
  rewrite get_closed, sign_eq. cbv zeta. cbn [id params].
  destruct (getSignature _) as [sig|e]; cbn [fst snd this]; by split.
Qed.



(** ** The placeholder *)

Lemma search_no_colon (s : string) :
  no_colon s = true -> JS.search ":id" s = None.
Proof.
  induction s as [|c s IH]; [reflexivity|].
  cbn [no_colon]. intros [Hc Hs]%andb_true_iff.
  cbn [JS.search String.prefix].
  destruct (ascii_dec ":" c) as [<-|_]; [discriminate Hc|].
  by rewrite (IH Hs).
Qed.

Lemma search_first (a b : string) :
  no_colon a = true -> JS.search ":id" (a ++ ":id" ++ b) = Some (a, b).
Proof.
  induction a as [|c a IH].
  - intros _. rewrite append_nil_l.
    change (":id" ++ b) with (String ":" (String "i" (String "d" b))).
    cbn [JS.search String.prefix String.length JS.drop].
    repeat (destruct (ascii_dec _ _) as [_|Hn]; [|by destruct Hn]).
    by destruct b.
  - cbn [no_colon]. intros [Hc Ha]%andb_true_iff.
    rewrite append_cons. cbn [JS.search String.prefix].
    destruct (ascii_dec ":" c) as [<-|_]; [discriminate Hc|].
    by rewrite (IH Ha).
Qed.

Lemma replaced_url_no_colon (u : string) (i : option string) :
  no_colon u = true -> replaced_url u i = u.
Proof.
  intros Hu. unfold replaced_url, JS.replace.
  rewrite (search_no_colon u Hu). by destruct (JS.truthy i).
Qed.

(** X11. On a resource whose template has no placeholder (no colon at all),
    an id is ignored without an error: the [get] with the id is the [get]
    without it. *)
Theorem get_ignores_id_without_placeholder {crypto : Crypto} (env : Moment.Env)
        (clock : nat -> Z) (r : Resource.t) (q : Query) (w : World) :
  no_colon (Resource.url r) = true ->
  Resource.get env clock r (Some q) w
  = Resource.get env clock r (Some {| id := None; params := params q |}) w.
Proof.
  intros Hr. rewrite !get_closed. cbn [id params].
  by rewrite !(replaced_url_no_colon _ _ Hr).
Qed.

Lemma get_ignores_id_without_placeholder_witness :
  no_colon (Resource.url
              (Usabilla.resource (Usabilla.client (Usabilla.constructor "AK" "SK"))
                 Usabilla.buttons)) = true
  /\ Resource.get (crypto := node_crypto) Moment.utc (frozen example_instant)
       (Usabilla.resource (Usabilla.client (Usabilla.constructor "AK" "SK"))
          Usabilla.buttons)
       (Some example_query) example_world
     = Resource.get (crypto := node_crypto) Moment.utc (frozen example_instant)
         (Usabilla.resource (Usabilla.client (Usabilla.constructor "AK" "SK"))
            Usabilla.buttons)
         (Some {| id := None; params := params example_query |}) example_world.
Proof.
  split; [reflexivity|].
  apply (get_ignores_id_without_placeholder (crypto := node_crypto) Moment.utc
           (frozen example_instant)
           (Usabilla.resource (Usabilla.client (Usabilla.constructor "AK" "SK"))
              Usabilla.buttons)
           example_query example_world).
  reflexivity.
Defined.

(** X12. Only the first placeholder is replaced: on a template that reads
    [a], [:id], [b], with no colon in [a], an id without a dollar sign (for
    the wildcard, [%2A]) takes the place of that [:id]; [b] stays as it is,
    with any further [:id] in it. *)
Theorem handleQuery_replaces_first_placeholder (a b i : string)
        (p : option (list (string * string))) (w : World) :
  no_colon a = true ->
  has_dollar i = false ->
  i <> "" ->
  url (this w) = Some (a ++ ":id" ++ b) ->
  url (this (snd (handleQuery {| id := Some i; params := p |} w)))
  = Some (a ++ resolved_id i ++ b).
Proof.
  intros Ha Hd Hi Hu. rewrite handleQuery_eq, Hu. cbn [id params JS.truthy JS.elem].
  destruct (String.eqb_spec i "") as [->|_]; [by destruct Hi|].
  cbn [negb snd this]. rewrite with_params_url. cbn [url with_url]. f_equal.
  unfold JS.replace. rewrite (search_first a b Ha).
  rewrite GetSubstitution_verbatim; [reflexivity|].
  unfold resolved_id. by destruct (String.eqb i "*").
Qed.

Lemma handleQuery_replaces_first_placeholder_witness :
  no_colon "/a/" = true
  /\ has_dollar "7" = false
  /\ "7" <> ""
  /\ url (this {| this := with_url (Some ("/a/" ++ ":id" ++ "/b/:id")) example_factory;
                  reads := 0 |})
     = Some ("/a/" ++ ":id" ++ "/b/:id")
  /\ url (this (snd (handleQuery {| id := Some "7"; params := None |}
                       {| this := with_url (Some ("/a/" ++ ":id" ++ "/b/:id"))
                                    example_factory;
                          reads := 0 |})))
     = Some ("/a/" ++ resolved_id "7" ++ "/b/:id").
Proof.
  split; [reflexivity|]. split; [reflexivity|]. split; [discriminate|].
  split; [reflexivity|].
  apply (handleQuery_replaces_first_placeholder "/a/" "/b/:id" "7" None
           {| this := with_url (Some ("/a/" ++ ":id" ++ "/b/:id")) example_factory;
              reads := 0 |});
    [reflexivity | reflexivity | discriminate | reflexivity].
Defined.

(** X13. [handleQuery] rewrites the id of the caller's query object in one
    case, the wildcard, and never its [params]; the rewritten object can be
    used again: with it [handleQuery] does to the same factory what it did
    with the original, and rewrites nothing more. *)
Theorem handleQuery_query_can_be_reused (q q' : Query) (w w' : World) :
  handleQuery q w = (Ok q', w') ->
  handleQuery q' w = (Ok q', w')
  /\ params q' = params q
  /\ (id q' = id q \/ (id q = Some "*" /\ id q' = Some "%2A")).
Proof.
  rewrite !handleQuery_eq. destruct q as [[i|] p]; cbn [id params JS.truthy JS.elem].
  - destruct (String.eqb_spec i "") as [->|Hi]; cbn [negb].
    + intros [= <- <-]. cbn [id params JS.truthy JS.elem negb].
      split_and!; [reflexivity|reflexivity|by left].
    + destruct (url (this w)) as [u|]; [|discriminate]. cbv zeta.
      intros [= <- <-]. cbn [id params JS.truthy JS.elem].
      unfold resolved_id.
      destruct (String.eqb_spec i "*") as [->|Hs].
      * split_and!; [reflexivity|reflexivity|by right].
      * assert (E : String.eqb i "*" = false) by (by apply String.eqb_neq).
        assert (E0 : String.eqb i "" = false) by (by apply String.eqb_neq).
        rewrite E0, ?E. cbn [negb]. rewrite ?E.
        split_and!; [reflexivity|reflexivity|by left].
  - intros [= <- <-]. split_and!; [reflexivity|reflexivity|by left].
Qed.

Lemma handleQuery_query_can_be_reused_witness :
  handleQuery {| id := Some "*"; params := None |}
    {| this := with_url (Some "/x/:id/y") example_factory; reads := 0 |}
  = (Ok {| id := Some "%2A"; params := None |},
     {| this := with_url (Some "/x/%2A/y") example_factory; reads := 0 |})
  /\ handleQuery {| id := Some "%2A"; params := None |}
       {| this := with_url (Some "/x/:id/y") example_factory; reads := 0 |}
     = (Ok {| id := Some "%2A"; params := None |},
        {| this := with_url (Some "/x/%2A/y") example_factory; reads := 0 |}).
Proof.
  split; [reflexivity|].
  apply (handleQuery_query_can_be_reused {| id := Some "*"; params := None |}
           {| id := Some "%2A"; params := None |}
           {| this := with_url (Some "/x/:id/y") example_factory; reads := 0 |}
           {| this := with_url (Some "/x/%2A/y") example_factory; reads := 0 |}).
  reflexivity.
Defined.

(** ** The query string *)



(** X15. The order in which the [params] object lists its properties has no
    effect: two objects with the same properties leave the factory in the
    same state. *)
Theorem handleQuery_ignores_the_order_of_params (i : option string) (w : World)
        (p p' : list (string * string)) :
  NoDup (List.map fst p) ->
  p ≡ₚ p' ->
  snd (handleQuery {| id := i; params := Some p |} w)
  = snd (handleQuery {| id := i; params := Some p' |} w).
Proof. apply handleQuery_order_irrelevant. Qed.

Lemma handleQuery_ignores_the_order_of_params_witness :
  NoDup (List.map fst [("b", "2"); ("a", "1")])
  /\ [("b", "2"); ("a", "1")] ≡ₚ [("a", "1"); ("b", "2")]
  /\ snd (handleQuery {| id := Some "42"; params := Some [("b", "2"); ("a", "1")] |}
            stale_world)
     = snd (handleQuery {| id := Some "42"; params := Some [("a", "1"); ("b", "2")] |}
              stale_world).
Proof.
  assert (Hnd : NoDup (List.map fst [("b", "2"); ("a", "1")])).
  { apply NoDup_cons. split; [|apply NoDup_singleton].
    intros H%list_elem_of_singleton. discriminate H. }
  split; [exact Hnd|]. split; [apply perm_swap|].
  apply (handleQuery_ignores_the_order_of_params (Some "42") stale_world
           [("b", "2"); ("a", "1")] [("a", "1"); ("b", "2")] Hnd).
  apply perm_swap.
Defined.

(** X16. For every id without a dollar sign, [handleQuery] leaves in
    [this.url] the path of the specification: the template with [%2A] for
    the wildcard or the id as it is in place of the first [:id], and the
    template untouched for an absent or empty id. *)
Theorem handleQuery_resolves_the_path (q : Query) (w : World) (u : string) :
  url (this w) = Some u ->
  has_dollar (JS.elem (id q)) = false ->
  url (this (snd (handleQuery q w))) = Some (Spec.resolvePath u (id q)).
Proof. apply handleQuery_path. Qed.

Lemma handleQuery_resolves_the_path_witness :
  url (this {| this := with_url (Some "/x/:id/y") example_factory; reads := 0 |})
  = Some "/x/:id/y"
  /\ has_dollar (JS.elem (id {| id := Some "*"; params := None |})) = false
  /\ url (this (snd (handleQuery {| id := Some "*"; params := None |}
                       {| this := with_url (Some "/x/:id/y") example_factory;
                          reads := 0 |})))
     = Some (Spec.resolvePath "/x/:id/y" (id {| id := Some "*"; params := None |})).
Proof.
  split; [reflexivity|]. split; [reflexivity|].
  apply (handleQuery_resolves_the_path {| id := Some "*"; params := None |}
           {| this := with_url (Some "/x/:id/y") example_factory; reads := 0 |}
           "/x/:id/y");
    reflexivity.
Defined.

(** ** The dates *)

(** X17. When the clock shows one instant at the three readings of a call,
    the dates [getDateTime] returns are the three forms of that instant. *)
Theorem getDateTime_of_a_still_clock (env : Moment.Env) (clock : nat -> Z) (t : Z)
        (w : World) :
  clock (reads w) = t ->
  clock (S (reads w)) = t ->
  clock (S (S (reads w))) = t ->
  fst (getDateTime env clock w) = Ok (Spec.snapshot env t).
Proof. apply getDateTime_snapshot. Qed.

Lemma getDateTime_of_a_still_clock_witness :
  frozen example_instant (reads example_world) = example_instant
  /\ frozen example_instant (S (reads example_world)) = example_instant
  /\ frozen example_instant (S (S (reads example_world))) = example_instant
  /\ fst (getDateTime Moment.utc (frozen example_instant) example_world)
     = Ok (Spec.snapshot Moment.utc example_instant).
Proof.
  split; [reflexivity|]. split; [reflexivity|]. split; [reflexivity|].
  apply (getDateTime_of_a_still_clock Moment.utc (frozen example_instant)
           example_instant example_world);
    reflexivity.
Defined.

Lemma format_shortdate (env : Moment.Env) (t : Z) :
  Moment.format env t "YYYYMMDD"
  = Moment.zeroFill (Moment.year (Moment.fields env t)) 4
      ++ Moment.zeroFill (Moment.month (Moment.fields env t)) 2
      ++ Moment.zeroFill (Moment.date (Moment.fields env t)) 2.
Proof.
  unfold Moment.format.
  change (Moment.tokens 0 "YYYYMMDD") with [Moment.YYYY; Moment.MM; Moment.DD].
  cbn [List.map Moment.render String.concat]. by rewrite !append_nil_l.
Qed.

Lemma time_range (env : Moment.Env) (t : Z) :
  0 <= Moment.hours (Moment.fields env t) < 24
  /\ 0 <= Moment.minutes (Moment.fields env t) < 60
  /\ 0 <= Moment.seconds (Moment.fields env t) < 60.
Proof.
  unfold Moment.fields. destruct (Moment.civil _) as [[y m] d].
  cbn [Moment.hours Moment.minutes Moment.seconds].
  set (secs := (t + Moment.utcOffset env t * 60000) / 1000).
  pose proof (Z.mod_pos_bound secs 86400 ltac:(lia)) as Hsod.
  set (sod := secs mod 86400) in *.
  split_and!; try (apply Z.mod_pos_bound; lia).
  - apply Z.div_pos; lia.
  - apply Z.div_lt_upper_bound; lia.
  - apply Z.div_pos; [|lia]. apply Z.mod_pos_bound. lia.
  - apply Z.div_lt_upper_bound; [lia|].
    pose proof (Z.mod_pos_bound sod 3600 ltac:(lia)). lia.
Qed.

(** X18. The long date extends the short date read from the same instant:
    when the clock does not move between the second and the third reading,
    [longdate] is [shortdate], a [T], six characters of time and a [Z], so
    that the scope of the credential is the day of the string to sign. *)
Theorem longdate_extends_shortdate (env : Moment.Env) (clock : nat -> Z)
        (w : World) :
  clock (S (reads w)) = clock (S (S (reads w))) ->
  exists (d : Dates) (time : string),
    fst (getDateTime env clock w) = Ok d
    /\ String.length time = 6%nat
    /\ longdate d = shortdate d ++ "T" ++ time ++ "Z".
Proof.
  intros Hc. rewrite getDateTime_eq. cbn [fst].
  set (f := Moment.fields env (clock (S (S (reads w))))).
  exists (dates_read env clock (reads w)),
    (Moment.zeroFill (Moment.hours f) 2 ++ Moment.zeroFill (Moment.minutes f) 2
       ++ Moment.zeroFill (Moment.seconds f) 2).
  destruct (time_range env (clock (S (S (reads w))))) as (Hh & Hm & Hs). fold f in Hh, Hm, Hs.
  split; [reflexivity|]. split.
  - rewrite !length_append, !zeroFill_2_length by lia. reflexivity.
  - cbn [dates_read longdate shortdate]. rewrite Hc, format_longdate, format_shortdate.
    fold f. by rewrite !append_assoc.
Qed.

Lemma longdate_extends_shortdate_witness :
  frozen example_instant (S (reads example_world))
  = frozen example_instant (S (S (reads example_world)))
  /\ exists (d : Dates) (time : string),
      fst (getDateTime Moment.utc (frozen example_instant) example_world) = Ok d
      /\ String.length time = 6%nat
      /\ longdate d = shortdate d ++ "T" ++ time ++ "Z".
Proof.
  split; [reflexivity|].
  apply (longdate_extends_shortdate Moment.utc (frozen example_instant) example_world).
  reflexivity.
Defined.

Lemma all_from_spec (check : Z -> bool) (n : nat) (z k : Z) :
  all_from check n z = true -> z <= k < z + Z.of_nat n -> check k = true.
Proof.
  revert z. induction n as [|n IH]; intros z; [lia|].
  cbn [all_from]. intros [Hz Hn]%andb_true_iff Hk.
  destruct (Z.eq_dec k z) as [->|Hne]; [exact Hz|].
  apply (IH (z + 1) Hn). lia.
Qed.

Lemma month_and_date_range (days : Z) : month_and_date_in_range days = true.
Proof.
  unfold month_and_date_in_range, Moment.civil. cbv zeta.
  set (z := days + 719468).
  pose proof (Z.mod_pos_bound z 146097 ltac:(lia)) as Hdoe.
  set (doe := z mod 146097) in *.
  set (yoe := (doe - doe / 1460 + doe / 36524 - doe / 146096) / 365).
  set (doy := doe - (365 * yoe + yoe / 4 - yoe / 100)).
  assert (Hdoy : 0 <= doy <= 365).
  { subst doy yoe. Z.div_mod_to_equations. lia. }
  clearbody doy. clear Hdoe. clearbody yoe doe.
  set (mp := (5 * doy + 2) / 153).
  assert (Hmp : 0 <= mp <= 11) by (subst mp; Z.div_mod_to_equations; lia).
  assert (Hd : 1 <= doy - (153 * mp + 2) / 5 + 1 <= 31)
    by (subst mp; Z.div_mod_to_equations; lia).
  clearbody mp.
  destruct (mp <? 10) eqn:E; [apply Z.ltb_lt in E|apply Z.ltb_ge in E];
    repeat (apply andb_true_iff; split); lia.
Qed.

Lemma fields_month_date (env : Moment.Env) (t : Z) :
  1 <= Moment.month (Moment.fields env t) <= 12
  /\ 1 <= Moment.date (Moment.fields env t) <= 31
  /\ 0 <= Moment.day (Moment.fields env t) < 7.
Proof.
  unfold Moment.fields.
  pose proof (month_and_date_range
                ((t + Moment.utcOffset env t * 60000) / 1000 / 86400)) as H.
  unfold month_and_date_in_range in H.
  destruct (Moment.civil _) as [[y m] d]. cbn [Moment.month Moment.date Moment.day].
  apply andb_true_iff in H as [[[H1 H2]%andb_true_iff H3]%andb_true_iff H4].
  split_and!; try lia; apply Z.mod_pos_bound; lia.
Qed.

Lemma zeroFill_4_length (n : Z) :
  0 <= n <= 9999 -> String.length (Moment.zeroFill n 4) = 4%nat.
Proof.
  intros Hn. apply Nat.eqb_eq.
  apply (all_from_spec (zeroFill_has_width 4) (Z.to_nat 10000) 0 n); [|lia].
  vm_compute. reflexivity.
Qed.

Lemma weekdaysShort_en_length (d : Z) :
  0 <= d < 7 -> String.length (Moment.weekdaysShort Moment.en d) = 3%nat.
Proof.
  intros Hd. replace d with (Z.of_nat (Z.to_nat d)) by lia.
  assert (Hlt : (Z.to_nat d < 7)%nat) by lia.
  generalize dependent (Z.to_nat d). clear. intros k Hk.
  do 7 (destruct k as [|k]; [reflexivity|]). lia.
Qed.

Lemma monthsShort_en_length (m : Z) :
  1 <= m <= 12 -> String.length (Moment.monthsShort Moment.en m) = 3%nat.
Proof.
  intros Hm. replace m with (Z.of_nat (Z.to_nat (m - 1)) + 1) by lia.
  assert (Hlt : (Z.to_nat (m - 1) < 12)%nat) by lia.
  generalize dependent (Z.to_nat (m - 1)). clear. intros k Hk.
  do 12 (destruct k as [|k]; [reflexivity|]). lia.
Qed.

(** X19. The dates have the fixed widths of the protocol: for readings of
    the clock in the years 0 to 9999 of the local calendar and the English
    names of days and months, [usbldate] has 29 characters, [shortdate] 8
    and [longdate] 16. *)
Theorem dates_have_fixed_width (env : Moment.Env) (clock : nat -> Z) (w : World) :
  Moment.locale env = Moment.en ->
  0 <= Moment.year (Moment.fields env (clock (reads w))) <= 9999 ->
  0 <= Moment.year (Moment.fields env (clock (S (reads w)))) <= 9999 ->
  0 <= Moment.year (Moment.fields env (clock (S (S (reads w))))) <= 9999 ->
  exists d : Dates,
    fst (getDateTime env clock w) = Ok d
    /\ String.length (usbldate d) = 29%nat
    /\ String.length (shortdate d) = 8%nat
    /\ String.length (longdate d) = 16%nat.
Proof.
  intros Hl Hy1 Hy2 Hy3. rewrite getDateTime_eq. cbn [fst].
  exists (dates_read env clock (reads w)). split; [reflexivity|].
  cbn [dates_read usbldate shortdate longdate].
  rewrite format_usbldate, format_shortdate, format_longdate. cbv zeta. rewrite Hl.
  destruct (time_range env (clock (reads w))) as (? & ? & ?).
  destruct (time_range env (clock (S (S (reads w))))) as (? & ? & ?).
  destruct (fields_month_date env (clock (reads w))) as (? & ? & ?).
  destruct (fields_month_date env (clock (S (reads w)))) as (? & ? & ?).
  destruct (fields_month_date env (clock (S (S (reads w))))) as (? & ? & ?).
  rewrite !length_append.
  rewrite weekdaysShort_en_length, monthsShort_en_length by assumption.
  rewrite !zeroFill_4_length by assumption.
  rewrite !zeroFill_2_length by lia.
  by split_and!.
Qed.

Lemma dates_have_fixed_width_witness :
  Moment.locale Moment.utc = Moment.en
  /\ 0 <= Moment.year (Moment.fields Moment.utc
                         (frozen example_instant (reads example_world))) <= 9999
  /\ 0 <= Moment.year (Moment.fields Moment.utc
                         (frozen example_instant (S (reads example_world)))) <= 9999
  /\ 0 <= Moment.year (Moment.fields Moment.utc
                         (frozen example_instant (S (S (reads example_world))))) <= 9999
  /\ exists d : Dates,
      fst (getDateTime Moment.utc (frozen example_instant) example_world) = Ok d
      /\ String.length (usbldate d) = 29%nat
      /\ String.length (shortdate d) = 8%nat
      /\ String.length (longdate d) = 16%nat.
Proof.
  assert (Hy : 0 <= Moment.year (Moment.fields Moment.utc example_instant) <= 9999)
    by (vm_compute; split; discriminate).
  split; [reflexivity|]. split; [exact Hy|]. split; [exact Hy|]. split; [exact Hy|].
  exact (dates_have_fixed_width Moment.utc (frozen example_instant) example_world
           eq_refl Hy Hy Hy).
Defined.

(** ** The signature and the methods it is made of *)






(** X22. After [setMethod], the method of the canonical string is the one
    stored, except the empty string, which signs as a [GET] like no method at
    all; the other segments are not touched. *)
Theorem setMethod_in_canonicalString {crypto : Crypto} (m : string) (w : World)
        (d : Dates) :
  dates (this w) = Some d ->
  canonicalString (this (snd (setMethod m w)))
  = of_option (Spec.canonicalString (Some (if String.eqb m "" then "GET" else m))
                 (JS.elem (url (this w))) (JS.elem (queryParameters (this w)))
                 (usbldate d) (host (this w))).
Proof.
  intros Hd. rewrite (canonicalString_eq _ d) by exact Hd.
  cbn [setMethod assign snd this method url queryParameters host with_method].
  unfold Spec.canonicalString, Spec.method_or_default.
  destruct (String.eqb m "") eqn:E; [reflexivity|]. by rewrite E.
Qed.

Lemma setMethod_in_canonicalString_witness :
  dates (this {| this := example_factory; reads := 0 |}) = Some example_dates
  /\ canonicalString (crypto := node_crypto)
       (this (snd (setMethod "" {| this := example_factory; reads := 0 |})))
     = of_option (Spec.canonicalString (crypto := node_crypto)
                    (Some (if String.eqb "" "" then "GET" else ""))
                    (JS.elem (url example_factory))
                    (JS.elem (queryParameters example_factory))
                    (usbldate example_dates) (host example_factory)).
Proof.
  split; [reflexivity|].
  apply (setMethod_in_canonicalString (crypto := node_crypto) ""
           {| this := example_factory; reads := 0 |} example_dates).
  reflexivity.
Defined.

(** ** configure *)

Lemma run_config {crypto : Crypto} (env : Moment.Env) (clock : nat -> Z)
      (k : string) (cs : list Usabilla.call) (s : Usabilla.State) :
  (is_Some (Usabilla.config (Usabilla.client s) !! k) ->
   is_Some (Usabilla.config (Usabilla.client (snd (Usabilla.run env clock cs s))) !! k))
  /\ (mentions k cs = false ->
      Usabilla.config (Usabilla.client (snd (Usabilla.run env clock cs s))) !! k
      = Usabilla.config (Usabilla.client s) !! k).
Proof.
  revert s. induction cs as [|c cs IH]; intros s; [by split|].
  rewrite run_cons. cbn [snd].
  destruct c as [options|p q]; cbn [Usabilla.step mentions].
  - cbn [snd]. destruct (IH {| Usabilla.client := Usabilla.configure options
                                                     (Usabilla.client s);
                               Usabilla.world := Usabilla.world s |}) as [IH1 IH2].
    cbn [Usabilla.client Usabilla.configure Usabilla.config] in IH1, IH2. split.
    + intros Hk. apply IH1. apply lookup_union_is_Some. by right.
    + destruct (options !! k) eqn:Ho; [discriminate|]. intros Hm.
      rewrite (IH2 Hm). by apply lookup_union_r.
  - destruct (Resource.get _ _ _ _ _) as [r w]. cbn [snd].
    apply (IH {| Usabilla.client := Usabilla.client s; Usabilla.world := w |}).
Qed.

(** X23. [configure] adds and overwrites settings and never removes one:
    after any calls of [configure] and [get], the [config] of a client still
    has its [method], its [host] and its [protocol]. *)
Theorem configure_keeps_the_settings {crypto : Crypto} (env : Moment.Env)
        (clock : nat -> Z) (accessKey secretKey : string)
        (cs : list Usabilla.call) :
  Forall
    (fun k =>
       is_Some (Usabilla.config
                  (Usabilla.client
                     (snd (Usabilla.run env clock cs
                             (Usabilla.constructor accessKey secretKey)))) !! k))
    ["method"; "host"; "protocol"].
Proof.
  repeat apply Forall_cons_2; [..|apply Forall_nil_2];
    apply (run_config env clock); by eexists.
Qed.

(** X24. A setting that no [configure] call of a sequence names keeps the
    value it had: neither another [configure] nor a [get] writes it. *)
Theorem configure_leaves_other_settings {crypto : Crypto} (env : Moment.Env)
        (clock : nat -> Z) (k : string) (cs : list Usabilla.call)
        (s : Usabilla.State) :
  mentions k cs = false ->
  Usabilla.config (Usabilla.client (snd (Usabilla.run env clock cs s))) !! k
  = Usabilla.config (Usabilla.client s) !! k.
Proof. apply run_config. Qed.

Lemma configure_leaves_other_settings_witness :
  mentions "host"
    [Usabilla.Configure {["protocol" := "http"]}; Usabilla.Get Usabilla.buttons None]
  = false
  /\ Usabilla.config
       (Usabilla.client
          (snd (Usabilla.run (crypto := no_digest_crypto) Moment.utc
                  (frozen example_instant)
                  [Usabilla.Configure {["protocol" := "http"]};
                   Usabilla.Get Usabilla.buttons None]
                  (Usabilla.constructor "AK" "SK")))) !! "host"
     = Usabilla.config (Usabilla.client (Usabilla.constructor "AK" "SK")) !! "host".
Proof.
  split; [reflexivity|].
  apply (configure_leaves_other_settings (crypto := no_digest_crypto) Moment.utc
           (frozen example_instant) "host"
           [Usabilla.Configure {["protocol" := "http"]};
            Usabilla.Get Usabilla.buttons None]
           (Usabilla.constructor "AK" "SK")).
  reflexivity.
Defined.

(** ** The tree of resources *)

Lemma no_colon_append (a b : string) :
  no_colon (a ++ b) = no_colon a && no_colon b.
Proof.
  induction a as [|c a IH]; [reflexivity|].
  rewrite append_cons. cbn [no_colon]. by rewrite IH, andb_assoc.
Qed.

(** X25. In the tree that the constructors build under a base without a
    colon, the buttons and the campaigns have a template without a
    placeholder, and the feedback, the results and the statistics have the
    template of their parent followed by one placeholder and their name: an
    id goes right after the parent's path, and nowhere else. *)
Theorem resources_have_one_placeholder_after_the_parent (base : string) :
  no_colon base = true ->
  let tree := WebsitesProduct.constructor base in
  let buttons := ButtonsResource.self (WebsitesProduct.buttons tree) in
  let feedback := ButtonsResource.feedback (WebsitesProduct.buttons tree) in
  let campaigns := CampaignsResource.self (WebsitesProduct.campaigns tree) in
  let results := CampaignsResource.results (WebsitesProduct.campaigns tree) in
  let stats := CampaignsResource.stats (WebsitesProduct.campaigns tree) in
  no_colon (Resource.url buttons) = true
  /\ no_colon (Resource.url campaigns) = true
  /\ Resource.url feedback = (Resource.url buttons ++ "/") ++ ":id" ++ "/feedback"
  /\ Resource.url results = (Resource.url campaigns ++ "/") ++ ":id" ++ "/results"
  /\ Resource.url stats = (Resource.url campaigns ++ "/") ++ ":id" ++ "/stats"
  /\ no_colon (Resource.url buttons ++ "/") = true
  /\ no_colon (Resource.url campaigns ++ "/") = true.
Proof.
  intros Hb. cbv zeta.
  cbn [WebsitesProduct.constructor WebsitesProduct.buttons WebsitesProduct.campaigns
       ButtonsResource.constructor ButtonsResource.self ButtonsResource.feedback
       CampaignsResource.constructor CampaignsResource.self
       CampaignsResource.results CampaignsResource.stats
       ButtonFeedbackResource.constructor CampaignsResultsResource.constructor
       CampaignsStatsResource.constructor Resource.constructor Resource.url].
  rewrite !no_colon_append, Hb.
  split_and!; try reflexivity; by rewrite !append_assoc.
Qed.

Lemma resources_have_one_placeholder_after_the_parent_witness :
  no_colon "/live" = true
  /\ Resource.url (ButtonsResource.feedback
                     (WebsitesProduct.buttons (WebsitesProduct.constructor "/live")))
     = (Resource.url (ButtonsResource.self
                        (WebsitesProduct.buttons (WebsitesProduct.constructor "/live")))
          ++ "/") ++ ":id" ++ "/feedback".
Proof.
  split; [reflexivity|].
  apply (resources_have_one_placeholder_after_the_parent "/live").
  reflexivity.
Defined.

End Further.
